(** * app.py: the query worker and the window that drives it

    A shallow embedding of [LLMWorker] and of the parts of [LLMInterface]
    that submit a question and receive the worker's signals
    ([process_question], [handle_response], [handle_error],
    [handle_progress], [_reset_ui]), with [upload_csv] and [create_plot] on
    the fields they share with these.

    Python [str] values are Rocq [string]s, one [ascii] per code point
    (code points below 256).  Exceptions are values of [Exception]; code that
    can raise returns [Exception + A].  The worker thread is a small monad
    that threads the log of what the thread did (signals emitted, backend
    requests, console output) and carries a raised exception.  The libraries the worker
    calls into (the Ollama client and the chain around it) are a record of
    functions, [Ollama], over which every statement is quantified. *)

From Stdlib Require Import Ascii String PrimFloat DecimalString.
From stdpp Require Import gmap strings list.

Set Warnings "-inexact-float".

(** ** Python values *)

Module Py.

(** Exceptions that are instances of [Exception].  [Raised cls msg] is any
    exception raised by library code, with its class name and the text
    [str] gives for it. *)
Inductive Exception : Type :=
  | KeyError (key : string)
  | ValueError (msg : string)
  | Raised (cls msg : string).

(** [str(e)].  A [KeyError] prints the [repr] of its key; the keys here are
    plain identifiers, whose [repr] is the key between single quotes. *)
Definition str (e : Exception) : string :=
  match e with
  | KeyError key => "'" +:+ key +:+ "'"
  | ValueError msg => msg
  | Raised _ msg => msg
  end.

(** [str(n)] for a non-negative [int]. *)
Definition str_int (n : N) : string := NilZero.string_of_uint (N.to_uint n).

(** [c.isspace()] for a code point below 256. *)
Definition isspace (c : ascii) : bool :=
  let n := N_of_ascii c in
  ((9 <=? n) && (n <=? 13) || (28 <=? n) && (n <=? 32)
   || (n =? 133) || (n =? 160))%N.

Fixpoint lstrip (s : string) : string :=
  match s with
  | EmptyString => EmptyString
  | String c r => if isspace c then lstrip r else s
  end.

Fixpoint rstrip (s : string) : string :=
  match s with
  | EmptyString => EmptyString
  | String c r =>
      match rstrip r with
      | EmptyString => if isspace c then EmptyString else String c EmptyString
      | r' => String c r'
      end
  end.

(** [s.strip()] *)
Definition strip (s : string) : string := rstrip (lstrip s).

(** Truth value of a [str]: [if s] holds unless [s] is empty. *)
Definition truthy (s : string) : bool :=
  match s with EmptyString => false | String _ _ => true end.

(** [sep.join(l)] *)
Fixpoint join (sep : string) (l : list string) : string :=
  match l with
  | [] => ""
  | [x] => x
  | x :: r => x +:+ sep +:+ join sep r
  end.

Definition map_ok {A B} (f : A → B) (r : Exception + A) : Exception + B :=
  match r with inl e => inl e | inr a => inr (f a) end.

(** [t.format] with keyword arguments [kwargs], for templates whose replacement fields are plain
    names: text is copied, [{{] and [}}] stand for one brace, [{name}] is
    replaced by [kwargs[name]] as it is.  [field] is [Some n] while the
    scanner is inside a replacement field, with [n] the name read so far.
    Fields are resolved from left to right, so the first fault wins. *)
Fixpoint vformat (t : string) (field : option string)
    (kwargs : gmap string string) : Exception + string :=
  match t, field with
  | EmptyString, None => inr ""
  | EmptyString, Some _ => inl (ValueError "expected '}' before end of string")
  | String c r, None =>
      if Ascii.eqb c "{"%char then
        match r with
        | String "{"%char r' => map_ok (String "{"%char) (vformat r' None kwargs)
        | EmptyString => inl (ValueError "Single '{' encountered in format string")
        | _ => vformat r (Some "") kwargs
        end
      else if Ascii.eqb c "}"%char then
        match r with
        | String "}"%char r' => map_ok (String "}"%char) (vformat r' None kwargs)
        | _ => inl (ValueError "Single '}' encountered in format string")
        end
      else map_ok (String c) (vformat r None kwargs)
  | String c r, Some name =>
      if Ascii.eqb c "}"%char then
        match kwargs !! name with
        | Some v => map_ok (String.append v) (vformat r None kwargs)
        | None => inl (KeyError name)
        end
      else vformat r (Some (name +:+ String c "")) kwargs
  end.

Definition format (t : string) (kwargs : gmap string string)
  : Exception + string := vformat t None kwargs.

(** [d[key]] *)
Definition getitem (d : gmap string string) (key : string)
  : Exception + string :=
  match d !! key with
  | Some v => inr v
  | None => inl (KeyError key)
  end.

End Py.

Import Py.

(** [sub in s] *)
Definition contains (sub s : string) : Prop :=
  ∃ pre post, s = pre +:+ sub +:+ post.

(** ** Signals and the worker thread *)

(** The three signals of [LLMWorker], each carrying a [str]. *)
Inductive Signal : Type :=
  | finished (text : string)
  | error (text : string)
  | progress (text : string).

Definition is_terminal (sg : Signal) : bool :=
  match sg with progress _ => false | _ => true end.

(** What the worker thread does that is visible outside it: a signal
    emitted, a request sent to the model backend, or a text written to the
    console. *)
Inductive Event : Type :=
  | Emit (sg : Signal)
  | Invoke (model : string) (temperature : float) (prompt : string)
  | Print (text : string).

(** The code of one thread: it appends to the log of events and either
    returns a value or raises. *)
Definition Thread (A : Type) : Type :=
  list Event → list Event * (Exception + A).

Definition ret {A} (a : A) : Thread A := λ log, (log, inr a).

Definition raise {A} (e : Exception) : Thread A := λ log, (log, inl e).

Definition bind {A B} (m : Thread A) (k : A → Thread B) : Thread B :=
  λ log,
    match m log with
    | (log', inr a) => k a log'
    | (log', inl e) => (log', inl e)
    end.

Definition lift {A} (r : Exception + A) : Thread A := λ log, (log, r).

Definition tell (ev : Event) : Thread unit := λ log, (log ++ [ev], inr tt).

(** [sig.emit(text)] *)
Definition emit (sg : Signal) : Thread unit := tell (Emit sg).

(** [try: body  except Exception as e: handler(e)] *)
Definition try_except {A} (body : Thread A) (handler : Exception → Thread A)
  : Thread A :=
  λ log,
    match body log with
    | (log', inl e) => handler e log'
    | done => done
    end.

#[export] Instance Thread_ret : MRet Thread := @ret.
#[export] Instance Thread_bind : MBind Thread := λ A B k m, bind m k.

(** ** The libraries behind the worker *)

(** [OllamaLLM(model=..., temperature=...)] *)
Record OllamaLLM : Type := {
  model : string;
  llm_temperature : float;
}.

(** [PromptTemplate(input_variables=..., template=...)] *)
Record PromptTemplate : Type := {
  input_variables : list string;
  template : string;
}.

(** The points at which a chain built with [verbose=True] writes to the
    console: when it is entered, when it has formatted its prompt (the text
    written is made from the formatted prompt), and when it has its
    answer. *)
Inductive ChainStage : Type :=
  | chain_start
  | prompt_formatted (text : string)
  | chain_end.

(** The behaviour of the Ollama client, of the model server and of the
    chain's console log, which are not part of this program.  [new_llm m t]
    is the fault raised by constructing the client, if any; [generate m t p]
    is what the chain's [invoke] gives back for the request [p]: the
    response dictionary or a fault (server unreachable, unknown model,
    unreadable reply, ...); [console stage] is the text a verbose chain
    writes at [stage]. *)
Record Ollama : Type := {
  new_llm : string → float → option Exception;
  generate : string → float → string → Exception + gmap string string;
  console : ChainStage → string;
}.

Section Worker.

Context (ollama : Ollama).

Definition OllamaLLM_new (m : string) (t : float) : Thread OllamaLLM :=
  match new_llm ollama m t with
  | Some e => raise e
  | None => ret {| model := m; llm_temperature := t |}
  end.

(** What a chain writes to the console at [stage]: something only if it is
    verbose. *)
Definition log_stage (verbose : bool) (stage : ChainStage) : Thread unit :=
  if verbose then tell (Print (console ollama stage)) else ret ().

(** [LLMChain(llm=llm, prompt=prompt, verbose=verbose).invoke(inputs)]: the
    inputs must cover the template's variables, the template is formatted
    with them, and the text goes to the backend; a verbose chain logs to the
    console on the way. *)
Definition chain_invoke (llm : OllamaLLM) (prompt : PromptTemplate)
    (verbose : bool) (inputs : gmap string string)
  : Thread (gmap string string) :=
  log_stage verbose chain_start;;
  match filter (λ k, bool_decide (inputs !! k = None)) (input_variables prompt) with
  | _ :: _ => raise (ValueError "Missing some input keys")
  | [] =>
      text ← lift (format (template prompt) inputs);
      log_stage verbose (prompt_formatted text);;
      tell (Invoke (model llm) (llm_temperature llm) text);;
      response ← lift (generate ollama (model llm) (llm_temperature llm) text);
      log_stage verbose chain_end;;
      ret response
  end.

(** ** LLMWorker *)

Record LLMWorker : Type := {
  question : string;
  model_name : string;
  temperature : float;
  csv_context : option string;
}.

(** [if self.csv_context:] — [None] and the empty string are both false. *)
Definition has_csv_context (self : LLMWorker) : option string :=
  match csv_context self with
  | Some c => if truthy c then Some c else None
  | None => None
  end.

Definition csv_template : string :=
"CSV Data Context:
{csv_context}

Question about the data: {question}

Provide a clear and detailed answer based on the CSV data above:".

Definition plain_template : string :=
"Question: {question}
Detailed Answer:".

Definition run (self : LLMWorker) : Thread unit :=
  try_except
    (emit (progress "Initializing LLM...");;
     llm ← OllamaLLM_new (model_name self) (temperature self);
     response ←
       match has_csv_context self with
       | Some c =>
           let template := csv_template in
           let prompt :=
             {| input_variables := ["csv_context"; "question"];
                template := template |} in
           chain_invoke llm prompt true
             (<["question" := question self]> {["csv_context" := c]})
       | None =>
           let prompt :=
             {| input_variables := ["question"];
                template := plain_template |} in
           chain_invoke llm prompt true {["question" := question self]}
       end;
     text ← lift (getitem response "text");
     emit (finished text))
    (λ e, emit (error (str e))).

(** Everything the thread does when started, in order. *)
Definition events (self : LLMWorker) : list Event := (run self []).1.

(** The signals among a list of events. *)
Definition signals (evs : list Event) : list Signal :=
  omap (λ ev, match ev with Emit sg => Some sg | _ => None end) evs.

(** The prompts sent to the backend among a list of events. *)
Definition prompts (evs : list Event) : list string :=
  omap (λ ev, match ev with Invoke _ _ p => Some p | _ => None end) evs.


End Worker.

(** ** The dataset *)

(** What the program reads from the loaded [pandas.DataFrame]: the number of
    rows, the column labels, and the two renderings pandas produces. *)
Record DataFrame : Type := {
  nrows : N;
  columns : list string;
  head_to_string : string;       (* df.head().to_string() *)
  describe_to_string : string;   (* df.describe().to_string() *)
}.

(** [df.shape] *)
Definition shape (df : DataFrame) : N * N :=
  (nrows df, N.of_nat (length (columns df))).

(** ** The window *)

(** The items of the two selectors.  They are filled once in [__init__] and
    are not editable, so the current text is always one of the items. *)
Inductive ModelItem : Type := deepseek_r1_7b | codellama_7b | deepseek_r1_1_5b.

Inductive TempItem : Type := t0_0 | t0_2 | t0_4 | t0_6 | t0_8 | t1_0.

Definition model_text (m : ModelItem) : string :=
  match m with
  | deepseek_r1_7b => "deepseek-r1:7b"
  | codellama_7b => "codellama:7b"
  | deepseek_r1_1_5b => "deepseek-r1:1.5b"
  end.

Definition temp_text (t : TempItem) : string :=
  match t with
  | t0_0 => "0.0" | t0_2 => "0.2" | t0_4 => "0.4"
  | t0_6 => "0.6" | t0_8 => "0.8" | t1_0 => "1.0"
  end.

(** [float(self.temp_selector.currentText())] *)
Definition temp_float (t : TempItem) : float :=
  match t with
  | t0_0 => 0.0 | t0_2 => 0.2 | t0_4 => 0.4
  | t0_6 => 0.6 | t0_8 => 0.8 | t1_0 => 1.0
  end%float.

(** [selector.setCurrentText(text)] on a selector that is not editable: the
    item with that text becomes current, and nothing happens if there is
    none. *)
Definition setCurrentText (text : string) (current : TempItem) : TempItem :=
  default current
    (head (filter (λ t, temp_text t = text) [t0_0; t0_2; t0_4; t0_6; t0_8; t1_0])).

(** The fields of [LLMInterface] that the query path reads or writes.  A
    text field ([input_area], [status_label], [output_area]) is the text the
    widget holds: what the user typed, or what the program last handed to
    [setText]; how the widget renders that text on screen is not modelled.
    [worker] is a reference to a thread object in the store of [App]; it is
    [None] until the first submission. *)
Record LLMInterface : Type := {
  df : option DataFrame;
  model_selector : ModelItem;
  model_selector_enabled : bool;
  temp_selector : TempItem;
  temp_selector_enabled : bool;
  input_area : string;
  input_area_enabled : bool;
  submit_button_enabled : bool;
  status_label : string;
  progress_range : Z * Z;
  progress_visible : bool;
  output_area : string;
  worker : option nat;
}.

(** The window as [__init__] leaves it. *)
Definition LLMInterface_init : LLMInterface := {|
  df := None;
  model_selector := deepseek_r1_7b;
  model_selector_enabled := true;
  temp_selector := setCurrentText "0.7" t0_0;
  temp_selector_enabled := true;
  input_area := "";
  input_area_enabled := true;
  submit_button_enabled := true;
  status_label := "";
  progress_range := (0, 100)%Z;
  progress_visible := false;
  output_area := "";
  worker := None;
|}.

Definition set_df (v : option DataFrame) (w : LLMInterface) : LLMInterface :=
  {| df := v; model_selector := model_selector w;
     model_selector_enabled := model_selector_enabled w;
     temp_selector := temp_selector w;
     temp_selector_enabled := temp_selector_enabled w;
     input_area := input_area w; input_area_enabled := input_area_enabled w;
     submit_button_enabled := submit_button_enabled w;
     status_label := status_label w; progress_range := progress_range w;
     progress_visible := progress_visible w; output_area := output_area w;
     worker := worker w |}.

Definition set_selectors (m : ModelItem) (t : TempItem) (w : LLMInterface)
  : LLMInterface :=
  {| df := df w; model_selector := m;
     model_selector_enabled := model_selector_enabled w;
     temp_selector := t;
     temp_selector_enabled := temp_selector_enabled w;
     input_area := input_area w; input_area_enabled := input_area_enabled w;
     submit_button_enabled := submit_button_enabled w;
     status_label := status_label w; progress_range := progress_range w;
     progress_visible := progress_visible w; output_area := output_area w;
     worker := worker w |}.

Definition set_input_area (v : string) (w : LLMInterface) : LLMInterface :=
  {| df := df w; model_selector := model_selector w;
     model_selector_enabled := model_selector_enabled w;
     temp_selector := temp_selector w;
     temp_selector_enabled := temp_selector_enabled w;
     input_area := v; input_area_enabled := input_area_enabled w;
     submit_button_enabled := submit_button_enabled w;
     status_label := status_label w; progress_range := progress_range w;
     progress_visible := progress_visible w; output_area := output_area w;
     worker := worker w |}.

(** The four [setEnabled] calls made together, on the submit button, the
    input area and the two selectors. *)
Definition set_controls_enabled (v : bool) (w : LLMInterface) : LLMInterface :=
  {| df := df w; model_selector := model_selector w;
     model_selector_enabled := v;
     temp_selector := temp_selector w;
     temp_selector_enabled := v;
     input_area := input_area w; input_area_enabled := v;
     submit_button_enabled := v;
     status_label := status_label w; progress_range := progress_range w;
     progress_visible := progress_visible w; output_area := output_area w;
     worker := worker w |}.

Definition set_status_label (v : string) (w : LLMInterface) : LLMInterface :=
  {| df := df w; model_selector := model_selector w;
     model_selector_enabled := model_selector_enabled w;
     temp_selector := temp_selector w;
     temp_selector_enabled := temp_selector_enabled w;
     input_area := input_area w; input_area_enabled := input_area_enabled w;
     submit_button_enabled := submit_button_enabled w;
     status_label := v; progress_range := progress_range w;
     progress_visible := progress_visible w; output_area := output_area w;
     worker := worker w |}.

Definition set_progress_range (v : Z * Z) (w : LLMInterface) : LLMInterface :=
  {| df := df w; model_selector := model_selector w;
     model_selector_enabled := model_selector_enabled w;
     temp_selector := temp_selector w;
     temp_selector_enabled := temp_selector_enabled w;
     input_area := input_area w; input_area_enabled := input_area_enabled w;
     submit_button_enabled := submit_button_enabled w;
     status_label := status_label w; progress_range := v;
     progress_visible := progress_visible w; output_area := output_area w;
     worker := worker w |}.

Definition set_progress_visible (v : bool) (w : LLMInterface) : LLMInterface :=
  {| df := df w; model_selector := model_selector w;
     model_selector_enabled := model_selector_enabled w;
     temp_selector := temp_selector w;
     temp_selector_enabled := temp_selector_enabled w;
     input_area := input_area w; input_area_enabled := input_area_enabled w;
     submit_button_enabled := submit_button_enabled w;
     status_label := status_label w; progress_range := progress_range w;
     progress_visible := v; output_area := output_area w;
     worker := worker w |}.

Definition set_output_area (v : string) (w : LLMInterface) : LLMInterface :=
  {| df := df w; model_selector := model_selector w;
     model_selector_enabled := model_selector_enabled w;
     temp_selector := temp_selector w;
     temp_selector_enabled := temp_selector_enabled w;
     input_area := input_area w; input_area_enabled := input_area_enabled w;
     submit_button_enabled := submit_button_enabled w;
     status_label := status_label w; progress_range := progress_range w;
     progress_visible := progress_visible w; output_area := v;
     worker := worker w |}.

Definition set_worker (v : option nat) (w : LLMInterface) : LLMInterface :=
  {| df := df w; model_selector := model_selector w;
     model_selector_enabled := model_selector_enabled w;
     temp_selector := temp_selector w;
     temp_selector_enabled := temp_selector_enabled w;
     input_area := input_area w; input_area_enabled := input_area_enabled w;
     submit_button_enabled := submit_button_enabled w;
     status_label := status_label w; progress_range := progress_range w;
     progress_visible := progress_visible w; output_area := output_area w;
     worker := v |}.

Definition _reset_ui (self : LLMInterface) : LLMInterface :=
  let self := set_controls_enabled true self in
  set_progress_visible false self.

Definition handle_response (response : string) (self : LLMInterface)
  : LLMInterface :=
  let self := set_output_area response self in
  let self := set_status_label "Response complete" self in
  _reset_ui self.

Definition handle_error (error_message : string) (self : LLMInterface)
  : LLMInterface :=
  let self := set_output_area ("Error: " +:+ error_message) self in
  let self := set_status_label "Error occurred" self in
  _reset_ui self.

Definition handle_progress (message : string) (self : LLMInterface)
  : LLMInterface :=
  set_status_label message self.

(** The dataset context [process_question] builds when a dataset is loaded. *)
Definition describe_dataset (d : DataFrame) : string :=
  "The CSV file has " +:+ str_int (shape d).1 +:+ " rows and "
    +:+ str_int (shape d).2 +:+ " columns.
Column names: " +:+ join ", " (columns d) +:+ "

First few rows of the data:
" +:+ head_to_string d +:+ "

Summary statistics:
" +:+ describe_to_string d.

(** ** Threads and the event loop *)

(** The methods of the window that signals are connected to. *)
Inductive Slot : Type := on_response | on_error | on_progress.

Definition call_slot (slot : Slot) (arg : string) : LLMInterface → LLMInterface :=
  match slot with
  | on_response => handle_response arg
  | on_error => handle_error arg
  | on_progress => handle_progress arg
  end.

(** A thread object in the store: the worker's fields, the slots connected to
    each of its signals, and what the thread has still to do ([[]] before
    [start] and once [run] has returned). *)
Record QThread : Type := {
  obj : LLMWorker;
  finished_slots : list Slot;
  error_slots : list Slot;
  progress_slots : list Slot;
  todo : list Event;
}.

(** The process: the window, the thread objects by reference, and the
    requests the backend has received so far. *)
Record App : Type := {
  window : LLMInterface;
  threads : list QThread;
  requests : list (string * float * string);
}.

Definition with_window (f : LLMInterface → LLMInterface) (app : App) : App :=
  {| window := f (window app); threads := threads app;
     requests := requests app |}.

(** [LLMWorker(question, model_name, temperature, csv_context)]: a new
    object, nothing connected, not started.  Gives its reference. *)
Definition LLMWorker_new (w : LLMWorker) (app : App) : nat * App :=
  (length (threads app),
   {| window := window app;
      threads := threads app ++
        [{| obj := w; finished_slots := []; error_slots := [];
            progress_slots := []; todo := [] |}];
      requests := requests app |}).

Definition update_thread (r : nat) (f : QThread → QThread) (app : App) : App :=
  {| window := window app;
     threads := alter f r (threads app);
     requests := requests app |}.

(** [worker.finished.connect(slot)] and its two siblings. *)
Definition connect_finished (slot : Slot) (th : QThread) : QThread :=
  {| obj := obj th; finished_slots := finished_slots th ++ [slot];
     error_slots := error_slots th; progress_slots := progress_slots th;
     todo := todo th |}.

Definition connect_error (slot : Slot) (th : QThread) : QThread :=
  {| obj := obj th; finished_slots := finished_slots th;
     error_slots := error_slots th ++ [slot];
     progress_slots := progress_slots th; todo := todo th |}.

Definition connect_progress (slot : Slot) (th : QThread) : QThread :=
  {| obj := obj th; finished_slots := finished_slots th;
     error_slots := error_slots th;
     progress_slots := progress_slots th ++ [slot]; todo := todo th |}.

Definition set_todo (evs : list Event) (th : QThread) : QThread :=
  {| obj := obj th; finished_slots := finished_slots th;
     error_slots := error_slots th; progress_slots := progress_slots th;
     todo := evs |}.

(** [worker.start()]: the thread will execute [run], against the backend
    behaviour [ollama] it is going to meet. *)
Definition start (ollama : Ollama) (th : QThread) : QThread :=
  set_todo (events ollama (obj th)) th.

Definition process_question (ollama : Ollama) (app : App) : App :=
  let question := strip (input_area (window app)) in
  if negb (truthy question) then app
  else
    (* Disable input while processing *)
    let app := with_window (set_controls_enabled false) app in
    let app := with_window (set_progress_range (0, 0)%Z) app in
    let app := with_window (set_progress_visible true) app in
    (* Prepare CSV context if available *)
    let csv_context :=
      match df (window app) with
      | Some d => Some (describe_dataset d)
      | None => None
      end in
    (* Create and start worker thread *)
    let '(r, app) :=
      LLMWorker_new
        {| question := question;
           model_name := model_text (model_selector (window app));
           temperature := temp_float (temp_selector (window app));
           csv_context := csv_context |} app in
    let app := with_window (set_worker (Some r)) app in
    let app := update_thread r (connect_finished on_response) app in
    let app := update_thread r (connect_error on_error) app in
    let app := update_thread r (connect_progress on_progress) app in
    update_thread r (start ollama) app.

(** [upload_csv], on the fields above: [file_name] is what the file dialog
    returned and [read] the outcome of [pd.read_csv(file_name)]. *)
Definition upload_csv (file_name : string) (read : Exception + DataFrame)
    (self : LLMInterface) : LLMInterface :=
  if truthy file_name then
    match read with
    | inr d =>
        let self := set_df (Some d) self in
        set_status_label "CSV file loaded successfully" self
    | inl e =>
        let self := set_status_label ("Error loading CSV: " +:+ str e) self in
        set_df None self
    end
  else self.

(** [create_plot], on the fields above: [plot] is the outcome of drawing and
    showing the figure. *)
Definition create_plot (plot : Exception + unit) (self : LLMInterface)
  : LLMInterface :=
  match df self with
  | None => set_status_label "Please load a CSV file first" self
  | Some _ =>
      match plot with
      | inr _ => set_status_label "Plot created successfully" self
      | inl e => set_status_label ("Error creating plot: " +:+ str e) self
      end
  end.

(** The slots a signal of thread [th] is delivered to, with its argument. *)
Definition receivers (th : QThread) (sg : Signal) : list Slot * string :=
  match sg with
  | finished text => (finished_slots th, text)
  | error text => (error_slots th, text)
  | progress text => (progress_slots th, text)
  end.

Definition deliver (th : QThread) (sg : Signal) (self : LLMInterface)
  : LLMInterface :=
  let '(slots, arg) := receivers th sg in
  foldl (λ self slot, call_slot slot arg self) self slots.

(** Thread [r] does the next thing it has to do: a request reaches the
    backend, a signal is emitted and its slots run in the window, or a text
    goes to the console, which is no part of the state kept here. *)
Definition advance (r : nat) (app : App) : option App :=
  match threads app !! r with
  | Some th =>
      match todo th with
      | [] => None
      | Invoke m t p :: rest =>
          Some {| window := window app;
                  threads := <[r := set_todo rest th]> (threads app);
                  requests := requests app ++ [(m, t, p)] |}
      | Emit sg :: rest =>
          Some {| window := deliver th sg (window app);
                  threads := <[r := set_todo rest th]> (threads app);
                  requests := requests app |}
      | Print _ :: rest =>
          Some {| window := window app;
                  threads := <[r := set_todo rest th]> (threads app);
                  requests := requests app |}
      end
  | None => None
  end.

(** What can happen next in the running program.  The submit button sends
    [clicked] only while it is enabled; the input area and the selectors
    take input only while enabled. *)
Inductive step : App → App → Prop :=
  | step_click ollama app :
      submit_button_enabled (window app) = true →
      step app (process_question ollama app)
  | step_edit text app :
      input_area_enabled (window app) = true →
      step app (with_window (set_input_area text) app)
  | step_select m t app :
      (model_selector_enabled (window app) = false →
         m = model_selector (window app)) →
      (temp_selector_enabled (window app) = false →
         t = temp_selector (window app)) →
      step app (with_window (set_selectors m t) app)
  | step_upload file_name read app :
      step app (with_window (upload_csv file_name read) app)
  | step_plot plot app :
      step app (with_window (create_plot plot) app)
  | step_thread r app app' :
      advance r app = Some app' →
      step app app'.

Definition App_init : App :=
  {| window := LLMInterface_init; threads := []; requests := [] |}.

Definition reachable : App → Prop := rtc step App_init.

(** The signals of one query in their order: progress signals, then one
    terminal signal, then nothing. *)
Fixpoint lifecycle (l : list Signal) : bool :=
  match l with
  | [] => false
  | [sg] => is_terminal sg
  | sg :: r => negb (is_terminal sg) && lifecycle r
  end.

(** ** What the worker does, in closed form *)

(** The text of the request: the chosen template with its fields filled in. *)
Definition prompt_text (self : LLMWorker) : string :=
  match has_csv_context self with
  | Some c =>
      "CSV Data Context:
" +:+ c +:+ "

Question about the data: " +:+ question self +:+ "

Provide a clear and detailed answer based on the CSV data above:"
  | None =>
      "Question: " +:+ question self +:+ "
Detailed Answer:"
  end.

(** How a started worker ends, given what the backend does. *)
Definition outcome (ollama : Ollama) (self : LLMWorker) : Signal :=
  match generate ollama (model_name self) (temperature self) (prompt_text self) with
  | inl e => error (str e)
  | inr response =>
      match response !! "text" with
      | Some text => finished text
      | None => error (str (KeyError "text"))
      end
  end.

(** What a worker does once its request is out: a chain that got its
    answer logs that, and the worker emits its terminal signal. *)
Definition after_request (ollama : Ollama) (self : LLMWorker) : list Event :=
  match generate ollama (model_name self) (temperature self) (prompt_text self) with
  | inl _ => [Emit (outcome ollama self)]
  | inr _ => [Print (console ollama chain_end); Emit (outcome ollama self)]
  end.

(** The worker [process_question] creates for the question [q]. *)
Definition submitted (q : string) (self : LLMInterface) : LLMWorker :=
  {| question := q;
     model_name := model_text (model_selector self);
     temperature := temp_float (temp_selector self);
     csv_context := describe_dataset <$> df self |}.

(** The question consists of whitespace only (or is empty). *)
Fixpoint blank (s : string) : bool :=
  match s with
  | EmptyString => true
  | String c r => isspace c && blank r
  end.

(** A backend fault met by the worker [self]: raised when the client is
    constructed, raised by the chain's [invoke], or a response without the
    text the worker reads from it. *)
Inductive backend_fault (ollama : Ollama) (self : LLMWorker)
  : Exception → Prop :=
  | fault_client e :
      new_llm ollama (model_name self) (temperature self) = Some e →
      backend_fault ollama self e
  | fault_invoke e :
      new_llm ollama (model_name self) (temperature self) = None →
      generate ollama (model_name self) (temperature self) (prompt_text self)
        = inl e →
      backend_fault ollama self e
  | fault_response response :
      new_llm ollama (model_name self) (temperature self) = None →
      generate ollama (model_name self) (temperature self) (prompt_text self)
        = inr response →
      response !! "text" = None →
      backend_fault ollama self (KeyError "text").

(** What a thread has still to do is either nothing, or ends with the one
    terminal signal and has none before it. *)
Fixpoint closing (evs : list Event) : bool :=
  match evs with
  | [] => true
  | Emit sg :: r =>
      if is_terminal sg then bool_decide (r = [])
      else bool_decide (r ≠ []) && closing r
  | Invoke _ _ _ :: r => bool_decide (r ≠ []) && closing r
  | Print _ :: r => bool_decide (r ≠ []) && closing r
  end.

(** A thread wired the way [process_question] wires it. *)
Definition wired (th : QThread) : Prop :=
  finished_slots th = [on_response] ∧ error_slots th = [on_error]
  ∧ progress_slots th = [on_progress].

(** Single flight: a thread with anything left to do is the window's current
    worker, and the submit button is disabled meanwhile. *)
Definition single_flight (app : App) : Prop :=
  ∀ r th, threads app !! r = Some th →
    wired th ∧ closing (todo th) = true
    ∧ (todo th ≠ [] →
       worker (window app) = Some r
       ∧ submit_button_enabled (window app) = false).

(** Signals of a thread that is not the window's current worker leave the
    window as it is. *)
Definition stale_signals_dropped (app : App) : Prop :=
  ∀ r app', worker (window app) ≠ Some r → advance r app = Some app' →
    window app' = window app.

(** The four input controls are enabled. *)
Definition controls_enabled (self : LLMInterface) : Prop :=
  submit_button_enabled self = true ∧ input_area_enabled self = true
  ∧ model_selector_enabled self = true ∧ temp_selector_enabled self = true.

(** ** Backends and windows used in the examples *)

(** A console log in the manner of the chain's standard output handler,
    without its colours. *)
Definition plain_console (stage : ChainStage) : string :=
  match stage with
  | chain_start => "> Entering new LLMChain chain..."
  | prompt_formatted text => "Prompt after formatting:
" +:+ text
  | chain_end => "> Finished chain."
  end.

(** A backend that answers every request with [text]. *)
Definition answers (text : string) : Ollama :=
  {| new_llm := λ _ _, None;
     generate := λ _ _ _, inr {["text" := text]};
     console := plain_console |}.

(** A backend that cannot be reached. *)
Definition unreachable (msg : string) : Ollama :=
  {| new_llm := λ _ _, None;
     generate := λ _ _ _, inl (Raised "ConnectionError" msg);
     console := plain_console |}.

(** The window after the user typed [text]. *)
Definition typed (text : string) : App :=
  with_window (set_input_area text) App_init.

Definition small_df : DataFrame :=
  {| nrows := 10; columns := ["a"; "b"];
     head_to_string := "   a  b
0  1  2";
     describe_to_string := "          a     b
count  10.0  10.0" |}.

(** The window with [small_df] loaded and [text] typed. *)
Definition typed_with_data (text : string) : App :=
  with_window (set_input_area text)
    (with_window (upload_csv "small.csv" (inr small_df)) App_init).


(** ** Further notions used in the properties *)

(** The text does not start with whitespace. *)
Definition no_leading_space (s : string) : bool :=
  match s with
  | EmptyString => true
  | String c _ => negb (isspace c)
  end.

(** The text does not end with whitespace. *)
Fixpoint no_trailing_space (s : string) : bool :=
  match s with
  | EmptyString => true
  | String c EmptyString => negb (isspace c)
  | String _ r => no_trailing_space r
  end.

(** A question as a worker gets it: not empty, and trimmed. *)
Definition trimmed_question (q : string) : Prop :=
  q ≠ "" ∧ no_leading_space q = true ∧ no_trailing_space q = true.

(** Thread [r] does at most [fuel] steps, stopping when it has nothing left
    to do. *)
Fixpoint drain (r : nat) (fuel : nat) (app : App) : App :=
  match fuel with
  | 0 => app
  | S fuel =>
      match advance r app with
      | Some app' => drain r fuel app'
      | None => app
      end
  end.

(** Thread [r] runs to its end: as many steps as it has things to do. *)
Definition finish (r : nat) (app : App) : App :=
  match threads app !! r with
  | Some th => drain r (length (todo th)) app
  | None => app
  end.

(** Some thread has something left to do. *)
Definition busy (app : App) : Prop :=
  ∃ r th, threads app !! r = Some th ∧ todo th ≠ [].

(** What the window's current worker has left to do. *)
Definition current_todo (app : App) : list Event :=
  match worker (window app) with
  | Some r =>
      match threads app !! r with
      | Some th => todo th
      | None => []
      end
  | None => []
  end.

(** The four controls move together and the progress bar shows exactly
    while they are disabled. *)
Definition controls_in_step (self : LLMInterface) : Prop :=
  input_area_enabled self = submit_button_enabled self
  ∧ model_selector_enabled self = submit_button_enabled self
  ∧ temp_selector_enabled self = submit_button_enabled self
  ∧ progress_visible self = negb (submit_button_enabled self).

(** [self.worker] is unset while no worker was ever created, and is the
    most recently created one otherwise. *)
Definition worker_is_latest (app : App) : Prop :=
  match worker (window app) with
  | None => threads app = []
  | Some r => S r = length (threads app)
  end.

(** What the reachable states have in common, besides [single_flight]. *)
Definition coherent (app : App) : Prop :=
  controls_in_step (window app)
  ∧ (submit_button_enabled (window app) = false → current_todo app ≠ [])
  ∧ worker_is_latest app
  ∧ length (requests app) + length (prompts (current_todo app))
    ≤ length (threads app)
  ∧ (∀ r th, threads app !! r = Some th →
       trimmed_question (question (obj th))).

(** The fields of the window that the query path owns: a function that
    keeps them leaves a running query alone. *)
Definition keeps_query_state (f : LLMInterface → LLMInterface) : Prop :=
  ∀ self,
    submit_button_enabled (f self) = submit_button_enabled self
    ∧ input_area_enabled (f self) = input_area_enabled self
    ∧ model_selector_enabled (f self) = model_selector_enabled self
    ∧ temp_selector_enabled (f self) = temp_selector_enabled self
    ∧ progress_visible (f self) = progress_visible self
    ∧ progress_range (f self) = progress_range self
    ∧ worker (f self) = worker self
    ∧ output_area (f self) = output_area self
    ∧ input_area (f self) = input_area self
    ∧ model_selector (f self) = model_selector self
    ∧ temp_selector (f self) = temp_selector self.

(** A first question answered, its worker having done its six steps, and a
    second one just submitted. *)
Definition first_answered : App :=
  drain 0 6 (process_question (answers "first") (typed "Q")).

Definition second_submitted : App :=
  process_question (answers "second") first_answered.


(** * Properties *)

(** ** Python values on examples *)

Example strip_example : strip " 	hi there
" = "hi there".
Proof. reflexivity. Qed.

Example strip_blank_example : strip " 	
 " = "".
Proof. reflexivity. Qed.

Example str_int_example : str_int 10 = "10" ∧ str_int 0 = "0".
Proof. split; reflexivity. Qed.

Example join_example : join ", " ["a"; "b"; "c"] = "a, b, c".
Proof. reflexivity. Qed.

Example format_example :
  format "{{{b}}} and {a}" (<["a" := "1"]> {["b" := "2"]}) = inr "{2} and 1".
Proof. vm_compute. reflexivity. Qed.

Example format_missing_example :
  format "x {a}" (∅ : gmap string string) = inl (KeyError "a").
Proof. vm_compute. reflexivity. Qed.

Example init_temperature_example : temp_selector LLMInterface_init = t0_0.
Proof. reflexivity. Qed.

Example run_example :
  events (answers "T")
    {| question := "Q"; model_name := "m"; temperature := 0.4;
       csv_context := Some "ctx" |}
  = [Emit (progress "Initializing LLM...");
     Print "> Entering new LLMChain chain...";
     Print "Prompt after formatting:
CSV Data Context:
ctx

Question about the data: Q

Provide a clear and detailed answer based on the CSV data above:";
     Invoke "m" 0.4 "CSV Data Context:
ctx

Question about the data: Q

Provide a clear and detailed answer based on the CSV data above:";
     Print "> Finished chain.";
     Emit (finished "T")].
Proof. vm_compute. reflexivity. Qed.

(** ** The worker *)

Lemma format_csv_template (c q : string) :
  format csv_template (<["question" := q]> {["csv_context" := c]})
  = inr ("CSV Data Context:
" +:+ c +:+ "

Question about the data: " +:+ q +:+ "

Provide a clear and detailed answer based on the CSV data above:").
Proof. vm_compute. reflexivity. Qed.

Lemma format_plain_template (q : string) :
  format plain_template {["question" := q]}
  = inr ("Question: " +:+ q +:+ "
Detailed Answer:").
Proof. vm_compute. reflexivity. Qed.

Ltac cover_inputs :=
  repeat (apply Forall_cons_2; [eexists; vm_compute; reflexivity|]);
  apply Forall_nil_2.

(** A verbose [chain.invoke] once the inputs are known to cover the template
    and the template to format to [text]: the chain logs that it starts and
    what it formatted, sends one request, and logs the end if it got an
    answer. *)
Lemma chain_invoke_ok (ollama : Ollama) (llm : OllamaLLM)
    (prompt : PromptTemplate) (inputs : gmap string string) (text : string)
    (log : list Event) :
  Forall (λ k, is_Some (inputs !! k)) (input_variables prompt) →
  format (template prompt) inputs = inr text →
  chain_invoke ollama llm prompt true inputs log
  = match generate ollama (model llm) (llm_temperature llm) text with
    | inl e =>
        (log ++ [Print (console ollama chain_start);
                 Print (console ollama (prompt_formatted text));
                 Invoke (model llm) (llm_temperature llm) text], inl e)
    | inr response =>
        (log ++ [Print (console ollama chain_start);
                 Print (console ollama (prompt_formatted text));
                 Invoke (model llm) (llm_temperature llm) text;
                 Print (console ollama chain_end)], inr response)
    end.
Proof.
  intros Hcover Hfmt. unfold chain_invoke.
  assert (filter (λ k, bool_decide (inputs !! k = None)) (input_variables prompt)
          = []) as ->.
  { induction Hcover as [|k ks [v Hk] _ IH]; [reflexivity|].
    rewrite filter_cons, IH, Hk. rewrite bool_decide_eq_false_2 by discriminate.
    reflexivity. }
  unfold mbind, Thread_bind, bind, lift, tell, log_stage, mret, Thread_ret, ret.
  rewrite Hfmt. simpl.
  destruct (generate ollama _ _ _) as [e|response];
    by rewrite <- !app_assoc.
Qed.

Lemma run_unfold (ollama : Ollama) (self : LLMWorker) :
  run ollama self [] =
    (Emit (progress "Initializing LLM...") ::
     match new_llm ollama (model_name self) (temperature self) with
     | Some e => [Emit (error (str e))]
     | None =>
         Print (console ollama chain_start) ::
         Print (console ollama (prompt_formatted (prompt_text self))) ::
         Invoke (model_name self) (temperature self) (prompt_text self) ::
         after_request ollama self
     end, inr ()).
Proof.
  unfold run, try_except, after_request, outcome, prompt_text, OllamaLLM_new.
  unfold mbind, Thread_bind, bind, emit, tell; simpl.
  destruct (new_llm ollama _ _) as [e|]; [reflexivity|]. simpl.
  destruct (has_csv_context self) as [c|].
  - erewrite chain_invoke_ok; [|cover_inputs|apply format_csv_template].
    simpl. destruct (generate ollama _ _ _) as [e|d]; [reflexivity|].
    unfold lift, getitem. destruct (d !! "text"); reflexivity.
  - erewrite chain_invoke_ok; [|cover_inputs|apply format_plain_template].
    simpl. destruct (generate ollama _ _ _) as [e|d]; [reflexivity|].
    unfold lift, getitem. destruct (d !! "text"); reflexivity.
Qed.

Lemma events_unfold (ollama : Ollama) (self : LLMWorker) :
  events ollama self =
    Emit (progress "Initializing LLM...") ::
    match new_llm ollama (model_name self) (temperature self) with
    | Some e => [Emit (error (str e))]
    | None =>
        Print (console ollama chain_start) ::
        Print (console ollama (prompt_formatted (prompt_text self))) ::
        Invoke (model_name self) (temperature self) (prompt_text self) ::
        after_request ollama self
    end.
Proof. unfold events. by rewrite run_unfold. Qed.

Lemma signals_after_request (ollama : Ollama) (self : LLMWorker) :
  signals (after_request ollama self) = [outcome ollama self].
Proof. unfold after_request. by destruct (generate _ _ _ _). Qed.

Lemma prompts_after_request (ollama : Ollama) (self : LLMWorker) :
  prompts (after_request ollama self) = [].
Proof. unfold after_request. by destruct (generate _ _ _ _). Qed.

Lemma outcome_terminal (ollama : Ollama) (self : LLMWorker) :
  is_terminal (outcome ollama self) = true.
Proof.
  unfold outcome. destruct (generate _ _ _ _) as [e|d]; [done|].
  by destruct (d !! "text").
Qed.

Lemma events_closing (ollama : Ollama) (self : LLMWorker) :
  closing (events ollama self) = true.
Proof.
  rewrite events_unfold.
  destruct (new_llm _ _ _); simpl; [done|].
  unfold after_request.
  destruct (generate _ _ _ _) eqn:Hgen; simpl; by rewrite outcome_terminal.
Qed.

(** C1: the signals of a worker are, in this order, progress signals and then
    exactly one terminal signal ([finished] or [error]) after which nothing
    is emitted; [run] itself returns. *)
Theorem C1_signal_order (ollama : Ollama) (self : LLMWorker) :
  ∃ before last,
    signals (events ollama self) = before ++ [last]
    ∧ Forall (λ sg, is_terminal sg = false) before
    ∧ is_terminal last = true
    ∧ lifecycle (signals (events ollama self)) = true
    ∧ (run ollama self []).2 = inr ().
Proof.
  rewrite events_unfold, run_unfold.
  exists [progress "Initializing LLM..."].
  destruct (new_llm _ _ _) as [e|].
  - exists (error (str e)). repeat split; auto.
  - exists (outcome ollama self).
    change (signals _) with
      (progress "Initializing LLM..." :: signals (after_request ollama self)).
    rewrite signals_after_request. simpl.
    rewrite outcome_terminal. repeat split; auto.
Qed.

(** C2: a fault of the backend (raised when the client is built, raised by
    the request, or a response without its text) is caught inside [run]: the
    worker emits [error] once, with the text of the fault, emits no
    [finished], and [run] returns without raising. *)
Theorem C2_fault_becomes_error (ollama : Ollama) (self : LLMWorker)
    (e : Exception) :
  backend_fault ollama self e →
  signals (events ollama self)
    = [progress "Initializing LLM..."; error (str e)]
  ∧ (run ollama self []).2 = inr ().
Proof.
  intros Hfault. rewrite events_unfold, run_unfold. split; [|done].
  destruct Hfault as [e Hnew|e Hnew Hgen|d Hnew Hgen Htext]; rewrite Hnew.
  - done.
  - simpl. rewrite signals_after_request. unfold outcome. by rewrite Hgen.
  - simpl. rewrite signals_after_request. unfold outcome.
    by rewrite Hgen, Htext.
Qed.

Lemma C2_fault_becomes_error_witness :
  let self := {| question := "Q"; model_name := "codellama:7b";
                 temperature := 0.2; csv_context := None |} in
  signals (events (unreachable "connection refused") self)
    = [progress "Initializing LLM..."; error "connection refused"]
  ∧ (run (unreachable "connection refused") self []).2 = inr ().
Proof.
  intros self.
  apply (C2_fault_becomes_error (unreachable "connection refused") self
           (Raised "ConnectionError" "connection refused")).
  apply fault_invoke; reflexivity.
Defined.

(** C4: against a backend that succeeds with the text [T], the worker emits
    [finished] exactly once, carrying [T] as it is, and no [error]. *)
Theorem C4_success_finishes (ollama : Ollama) (self : LLMWorker) (T : string) :
  (∀ m t, new_llm ollama m t = None) →
  (∀ m t p, ∃ response,
      generate ollama m t p = inr response ∧ response !! "text" = Some T) →
  signals (events ollama self)
    = [progress "Initializing LLM..."; finished T].
Proof.
  intros Hnew Hgen. rewrite events_unfold, Hnew. simpl.
  rewrite signals_after_request. unfold outcome.
  destruct (Hgen (model_name self) (temperature self) (prompt_text self))
    as (d & -> & ->). done.
Qed.

Lemma C4_success_finishes_witness :
  signals (events (answers "T")
             {| question := "Q"; model_name := "deepseek-r1:7b";
                temperature := 0.0; csv_context := None |})
    = [progress "Initializing LLM..."; finished "T"].
Proof.
  apply (C4_success_finishes (answers "T")).
  - intros m t. reflexivity.
  - intros m t p. exists {["text" := "T"]}. split; reflexivity.
Defined.






(** C10: a worker given the empty string as dataset context behaves exactly
    as a worker given none, and what it sends is the template without
    dataset around its question. *)
Theorem C10_empty_context_is_absent (ollama : Ollama)
    (q m : string) (t : float) :
  let empty := {| question := q; model_name := m; temperature := t;
                  csv_context := Some "" |} in
  let absent := {| question := q; model_name := m; temperature := t;
                   csv_context := None |} in
  run ollama empty = run ollama absent
  ∧ events ollama empty = events ollama absent
  ∧ (new_llm ollama m t = None →
     prompts (events ollama empty) = ["Question: " +:+ q +:+ "
Detailed Answer:"]).
Proof.
  intros empty absent. split; [reflexivity|]. split; [reflexivity|].
  intros Hnew. rewrite events_unfold. simpl. rewrite Hnew. simpl.
  by rewrite prompts_after_request.
Qed.

(** ** The window *)

Lemma append_assoc (a b c : string) : (a +:+ b) +:+ c = a +:+ b +:+ c.
Proof.
  induction a as [|x a IH]; [done|].
  change (String x ((a +:+ b) +:+ c) = String x (a +:+ b +:+ c)).
  by rewrite IH.
Qed.

Lemma lstrip_blank (s : string) : blank s = true → lstrip s = "".
Proof.
  induction s as [|c s IH]; simpl; [done|].
  intros [Hc Hs]%andb_prop. rewrite Hc. auto.
Qed.

Lemma strip_blank (s : string) : blank s = true → strip s = "".
Proof. intros Hs. unfold strip. by rewrite lstrip_blank. Qed.

Lemma process_question_accept (ollama : Ollama) (app : App) :
  strip (input_area (window app)) ≠ "" →
  process_question ollama app =
    {| window :=
         set_worker (Some (length (threads app)))
           (set_progress_visible true
              (set_progress_range (0, 0)%Z
                 (set_controls_enabled false (window app))));
       threads := threads app ++
         [{| obj := submitted (strip (input_area (window app))) (window app);
             finished_slots := [on_response];
             error_slots := [on_error];
             progress_slots := [on_progress];
             todo := events ollama
                       (submitted (strip (input_area (window app)))
                          (window app)) |}];
       requests := requests app |}.
Proof.
  intros Hq. unfold process_question.
  destruct (strip (input_area (window app))) as [|c q] eqn:Hs; [done|].
  simpl. unfold update_thread, with_window; simpl.
  rewrite <- (Nat.add_0_r (length (threads app))).
  rewrite !alter_app_r. simpl. rewrite Nat.add_0_r.
  unfold submitted. simpl. by destruct (df (window app)).
Qed.

(** C3: a question that is empty or made of whitespace only is rejected:
    [process_question] returns with the window, the thread objects and the
    backend's requests all unchanged. *)
Theorem C3_blank_question_rejected (ollama : Ollama) (app : App) :
  blank (input_area (window app)) = true →
  process_question ollama app = app.
Proof.
  intros Hb. unfold process_question. by rewrite (strip_blank _ Hb).
Qed.

Lemma C3_blank_question_rejected_witness :
  process_question (answers "T") (typed "
 	 ") = typed "
 	 ".
Proof.
  apply (C3_blank_question_rejected (answers "T")). reflexivity.
Defined.

(** C5: with a dataset loaded, the prompt sent for an accepted question [q]
    holds, in this order, the row and column counts, the column names, the
    first rows, the summary statistics, then the question and the request to
    answer from the data above.  For 10 rows and the columns a and b it
    contains the texts 10 rows and a, b, and the question. *)
Theorem C5_dataset_prompt (ollama : Ollama) (app : App) (d : DataFrame)
    (q : string) :
  df (window app) = Some d →
  strip (input_area (window app)) = q →
  q ≠ "" →
  new_llm ollama (model_text (model_selector (window app)))
    (temp_float (temp_selector (window app))) = None →
  ∃ th prompt,
    threads (process_question ollama app) !! length (threads app) = Some th
    ∧ worker (window (process_question ollama app))
      = Some (length (threads app))
    ∧ prompts (todo th) = [prompt]
    ∧ prompt =
        "CSV Data Context:
" +:+ ("The CSV file has " +:+ str_int (nrows d) +:+ " rows and "
       +:+ str_int (N.of_nat (length (columns d))) +:+ " columns.
Column names: " +:+ join ", " (columns d) +:+ "

First few rows of the data:
" +:+ head_to_string d +:+ "

Summary statistics:
" +:+ describe_to_string d) +:+ "

Question about the data: " +:+ q +:+ "

Provide a clear and detailed answer based on the CSV data above:"
    ∧ contains q prompt
    ∧ (nrows d = 10%N → columns d = ["a"; "b"] →
       contains "10 rows" prompt ∧ contains "a, b" prompt).
Proof.
  intros Hdf Hq Hne Hnew. subst q.
  rewrite process_question_accept by done. simpl.
  eexists _, _. split; [apply list_lookup_middle; done|].
  split; [done|]. simpl. rewrite events_unfold. simpl. rewrite Hnew. simpl.
  rewrite prompts_after_request.
  split; [reflexivity|].
  unfold prompt_text, has_csv_context, submitted. simpl. rewrite Hdf. simpl.
  split; [reflexivity|]. split.
  - eexists ("CSV Data Context:
" +:+ describe_dataset d +:+ "

Question about the data: "), _.
    rewrite !append_assoc. reflexivity.
  - intros Hrows Hcols. unfold describe_dataset, shape. simpl.
    rewrite Hrows, Hcols. split.
    + exists "CSV Data Context:
The CSV file has ". eexists. reflexivity.
    + exists "CSV Data Context:
The CSV file has 10 rows and 2 columns.
Column names: ". eexists. reflexivity.
Qed.

Lemma C5_dataset_prompt_witness :
  ∃ th prompt,
    threads (process_question (answers "T")
               (typed_with_data "  How many rows? ")) !! 0 = Some th
    ∧ prompts (todo th) = [prompt]
    ∧ contains "How many rows?" prompt
    ∧ contains "10 rows" prompt ∧ contains "a, b" prompt.
Proof.
  destruct (C5_dataset_prompt (answers "T")
              (typed_with_data "  How many rows? ") small_df
              "How many rows?")
    as (th & prompt & Hth & _ & Hp & _ & Hq & Hab).
  - reflexivity.
  - reflexivity.
  - discriminate.
  - reflexivity.
  - exists th, prompt. destruct Hab as [H10 Hcols]; [reflexivity..|].
    repeat split; assumption.
Defined.

(** C8: with no dataset loaded, the prompt sent for an accepted question [q]
    is the fixed template around the question, asking for a detailed answer,
    and the worker is given no dataset context. *)
Theorem C8_plain_prompt (ollama : Ollama) (app : App) (q : string) :
  df (window app) = None →
  strip (input_area (window app)) = q →
  q ≠ "" →
  new_llm ollama (model_text (model_selector (window app)))
    (temp_float (temp_selector (window app))) = None →
  ∃ th,
    threads (process_question ollama app) !! length (threads app) = Some th
    ∧ csv_context (obj th) = None
    ∧ prompts (todo th) = ["Question: " +:+ q +:+ "
Detailed Answer:"].
Proof.
  intros Hdf Hq Hne Hnew. subst q.
  rewrite process_question_accept by done. simpl.
  eexists. split; [apply list_lookup_middle; done|]. simpl.
  rewrite events_unfold. simpl. rewrite Hnew, Hdf. simpl.
  rewrite prompts_after_request.
  split; [done|].
  unfold prompt_text, has_csv_context, submitted. simpl. by rewrite Hdf.
Qed.

Lemma C8_plain_prompt_witness :
  ∃ th,
    threads (process_question (answers "T") (typed "Why is the sky blue?"))
      !! 0 = Some th
    ∧ csv_context (obj th) = None
    ∧ prompts (todo th) = ["Question: Why is the sky blue?
Detailed Answer:"].
Proof.
  apply (C8_plain_prompt (answers "T") (typed "Why is the sky blue?")
           "Why is the sky blue?").
  - reflexivity.
  - reflexivity.
  - discriminate.
  - reflexivity.
Defined.

(** C9: when a terminal signal of a worker wired by [process_question] is
    delivered, the four input controls are enabled again and the progress
    bar is hidden, for [finished] and for [error] alike; for [error] the
    response area shows the message after the prefix Error. *)
Theorem C9_terminal_rearms (th : QThread) (sg : Signal) (self : LLMInterface) :
  wired th →
  is_terminal sg = true →
  controls_enabled (deliver th sg self)
  ∧ progress_visible (deliver th sg self) = false
  ∧ (∀ text, sg = finished text → output_area (deliver th sg self) = text)
  ∧ (∀ text, sg = error text →
       output_area (deliver th sg self) = "Error: " +:+ text).
Proof.
  intros (Hf & He & Hp) Hterm. unfold deliver, receivers.
  destruct sg as [text|text|text]; [| |done].
  - rewrite Hf. simpl. repeat split; [|done]. by intros ? [= ->].
  - rewrite He. simpl. repeat split; [done|]. by intros ? [= ->].
Qed.

Lemma C9_terminal_rearms_witness :
  let th := {| obj := submitted "Q" LLMInterface_init;
               finished_slots := [on_response]; error_slots := [on_error];
               progress_slots := [on_progress]; todo := [] |} in
  let self := set_controls_enabled false LLMInterface_init in
  controls_enabled (deliver th (error "connection refused") self)
  ∧ output_area (deliver th (error "connection refused") self)
    = "Error: connection refused".
Proof.
  intros th self.
  destruct (C9_terminal_rearms th (error "connection refused") self)
    as (Hc & _ & _ & He).
  - repeat split.
  - reflexivity.
  - split; [exact Hc|]. apply (He "connection refused"). reflexivity.
Defined.

(** ** Single flight *)

Lemma wired_set_todo (evs : list Event) (th : QThread) :
  wired th → wired (set_todo evs th).
Proof. done. Qed.

Lemma single_flight_window (f : LLMInterface → LLMInterface) (app : App) :
  (∀ w, worker (f w) = worker w
        ∧ submit_button_enabled (f w) = submit_button_enabled w) →
  single_flight app → single_flight (with_window f app).
Proof.
  intros Hf Hinv r th Hth. simpl in *.
  destruct (Hinv r th Hth) as (Hw & Hcl & Hcur).
  destruct (Hf (window app)) as [-> ->]. done.
Qed.

Lemma single_flight_click (ollama : Ollama) (app : App) :
  single_flight app →
  submit_button_enabled (window app) = true →
  single_flight (process_question ollama app).
Proof.
  intros Hinv Hbtn.
  destruct (decide (strip (input_area (window app)) = "")) as [Hs|Hs].
  { unfold process_question. by rewrite Hs. }
  rewrite process_question_accept by done. intros r th Hth. simpl in *.
  apply lookup_app_Some in Hth as [Hth|[Hlen Hth]].
  - destruct (Hinv r th Hth) as (Hw & Hcl & Hcur).
    split; [done|]. split; [done|]. intros Hne.
    destruct (Hcur Hne) as [_ Hoff]. congruence.
  - apply list_lookup_singleton_Some in Hth as [Hr <-].
    assert (r = length (threads app)) as -> by lia. simpl.
    split; [done|]. split; [apply events_closing|]. done.
Qed.

Lemma single_flight_advance (r : nat) (app app' : App) :
  single_flight app → advance r app = Some app' → single_flight app'.
Proof.
  intros Hinv Hadv. unfold advance in Hadv.
  destruct (threads app !! r) as [th|] eqn:Hth; [|done].
  destruct (Hinv r th Hth) as (Hw & Hcl & Hcur).
  assert (r < length (threads app)) as Hlt by (by eapply lookup_lt_Some).
  destruct (todo th) as [|ev rest] eqn:Htodo; [done|].
  destruct Hcur as [Hworker Hoff]; [done|].
  assert (∀ r' th', r' ≠ r → threads app !! r' = Some th' → todo th' = [])
    as Hothers.
  { intros r' th' Hne Hth'. destruct (Hinv r' th' Hth') as (_ & _ & Hcur').
    destruct (decide (todo th' = [])) as [|Hbusy]; [done|].
    destruct (Hcur' Hbusy) as [Hworker' _]. congruence. }
  destruct ev as [sg|m t p|text]; simplify_eq; intros r' th' Hth'; simpl in *.
  - destruct (decide (r' = r)) as [->|Hne].
    + rewrite list_lookup_insert_eq in Hth' by done. simplify_eq. simpl.
      split; [done|]. destruct (is_terminal sg) eqn:Hterm.
      * apply bool_decide_eq_true in Hcl as ->. done.
      * apply andb_prop in Hcl as [_ Hcl]. split; [done|]. intros _.
        destruct sg as [| |text]; [done..|].
        unfold deliver, receivers. destruct Hw as (_ & _ & ->). done.
    + rewrite list_lookup_insert_ne in Hth' by done.
      destruct (Hinv r' th' Hth') as (Hw' & Hcl' & _).
      split; [done|]. split; [done|]. intros Hbusy.
      by rewrite (Hothers r' th') in Hbusy.
  - apply andb_prop in Hcl as [_ Hcl].
    destruct (decide (r' = r)) as [->|Hne].
    + rewrite list_lookup_insert_eq in Hth' by done. simplify_eq. done.
    + rewrite list_lookup_insert_ne in Hth' by done.
      destruct (Hinv r' th' Hth') as (Hw' & Hcl' & _).
      split; [done|]. split; [done|]. intros Hbusy.
      by rewrite (Hothers r' th') in Hbusy.
  - apply andb_prop in Hcl as [_ Hcl].
    destruct (decide (r' = r)) as [->|Hne].
    + rewrite list_lookup_insert_eq in Hth' by done. simplify_eq. done.
    + rewrite list_lookup_insert_ne in Hth' by done.
      destruct (Hinv r' th' Hth') as (Hw' & Hcl' & _).
      split; [done|]. split; [done|]. intros Hbusy.
      by rewrite (Hothers r' th') in Hbusy.
Qed.

Lemma single_flight_step (app app' : App) :
  single_flight app → step app app' → single_flight app'.
Proof.
  intros Hinv Hstep.
  destruct Hstep as [ollama app Hon|text app _|m t app _ _|file_name read app
                    |plot app|r app app' Hadv].
  - by apply single_flight_click.
  - by apply single_flight_window.
  - by apply single_flight_window.
  - apply single_flight_window; [|done]. intros w. unfold upload_csv.
    destruct (truthy file_name); [|done]. by destruct read.
  - apply single_flight_window; [|done]. intros w. unfold create_plot.
    destruct (df w); [|done]. by destruct plot.
  - by eapply single_flight_advance.
Qed.

Lemma reachable_single_flight (app : App) : reachable app → single_flight app.
Proof.
  revert app. apply rtc_ind_r.
  - intros r th Hth. done.
  - intros app app' _ Hstep Hinv. by eapply single_flight_step.
Qed.

(** C6: signals of a worker that has been superseded never reach the
    window.  [process_question] is run by the submit button only, and the
    button is disabled from an accepted submission until the terminal
    signal of its worker.  So, in every state the program reaches, a thread
    that takes its next step (a signal delivered, a request sent) is the
    window's latest worker, every worker that was superseded has nothing
    left to deliver, and no step of a thread other than the latest worker
    changes the window. *)
Theorem C6_no_stale_signals (app : App) :
  reachable app →
  (∀ r app', advance r app = Some app' → worker (window app) = Some r)
  ∧ (∀ r th, threads app !! r = Some th → worker (window app) ≠ Some r →
       todo th = [])
  ∧ stale_signals_dropped app.
Proof.
  intros Hreach. apply reachable_single_flight in Hreach.
  assert (∀ r app', advance r app = Some app' → worker (window app) = Some r)
    as Hcurrent.
  { intros r app' Hadv. unfold advance in Hadv.
    destruct (threads app !! r) as [th|] eqn:Hth; [|done].
    destruct (Hreach r th Hth) as (_ & _ & Hcur).
    apply Hcur. by destruct (todo th). }
  split; [exact Hcurrent|]. split.
  - intros r th Hth Hstale. destruct (Hreach r th Hth) as (_ & _ & Hcur).
    destruct (decide (todo th = [])) as [|Hbusy]; [done|].
    by destruct (Hcur Hbusy).
  - intros r app' Hstale Hadv. by destruct Hstale; eapply Hcurrent.
Qed.

Lemma C6_no_stale_signals_witness :
  worker (window second_submitted) = Some 1
  ∧ todo <$> (threads second_submitted !! 0) = Some []
  ∧ stale_signals_dropped second_submitted.
Proof.
  destruct (C6_no_stale_signals second_submitted)
    as (_ & Hstale & Hdropped).
  { unfold reachable, second_submitted, first_answered.
    set (app1 := process_question (answers "first") (typed "Q")).
    eapply rtc_l; [apply (step_edit "Q" App_init); reflexivity|].
    eapply rtc_l; [apply (step_click (answers "first")); reflexivity|].
    eapply rtc_l;
      [apply (step_thread 0 app1 (drain 0 1 app1)); vm_compute; reflexivity|].
    eapply rtc_l;
      [apply (step_thread 0 (drain 0 1 app1) (drain 0 2 app1));
       vm_compute; reflexivity|].
    eapply rtc_l;
      [apply (step_thread 0 (drain 0 2 app1) (drain 0 3 app1));
       vm_compute; reflexivity|].
    eapply rtc_l;
      [apply (step_thread 0 (drain 0 3 app1) (drain 0 4 app1));
       vm_compute; reflexivity|].
    eapply rtc_l;
      [apply (step_thread 0 (drain 0 4 app1) (drain 0 5 app1));
       vm_compute; reflexivity|].
    eapply rtc_l;
      [apply (step_thread 0 (drain 0 5 app1) (drain 0 6 app1));
       vm_compute; reflexivity|].
    eapply rtc_l;
      [apply (step_click (answers "second") (drain 0 6 app1));
       vm_compute; reflexivity|].
    apply rtc_refl.
  }
  split; [vm_compute; reflexivity|]. split; [|exact Hdropped].
  destruct (threads second_submitted !! 0) as [th|] eqn:Hth;
    [|vm_compute in Hth; discriminate].
  simpl. f_equal. apply (Hstale 0 th Hth). vm_compute. discriminate.
Defined.

(** * Further properties *)

(** ** Trimming and acceptance *)

Lemma blank_app (a b : string) : blank (a +:+ b) = blank a && blank b.
Proof.
  induction a as [|c a IH]; [done|].
  change (isspace c && blank (a +:+ b) = isspace c && blank a && blank b).
  rewrite IH. by destruct (isspace c).
Qed.

Lemma lstrip_split (s : string) :
  ∃ pre, s = pre +:+ lstrip s ∧ blank pre = true.
Proof.
  induction s as [|c s (pre & Hs & Hpre)]; [by exists ""|].
  simpl. destruct (isspace c) eqn:Hc.
  - exists (String c pre). split.
    + change (String c s = String c (pre +:+ lstrip s)). by rewrite <- Hs.
    + simpl. by rewrite Hc.
  - by exists "".
Qed.

Lemma lstrip_no_leading (s : string) : no_leading_space (lstrip s) = true.
Proof.
  induction s as [|c s IH]; [done|]. simpl.
  destruct (isspace c) eqn:Hc; [done|]. simpl. by rewrite Hc.
Qed.

Lemma rstrip_split (s : string) :
  ∃ post, s = rstrip s +:+ post ∧ blank post = true.
Proof.
  induction s as [|c s (post & Hs & Hpost)]; [by exists ""|].
  simpl. destruct (rstrip s) as [|c' r'] eqn:Hr.
  - change (s = post) in Hs. subst s. destruct (isspace c) eqn:Hc.
    + exists (String c post). split; [done|]. simpl. by rewrite Hc.
    + exists post. done.
  - exists post. split; [|done].
    change (String c s = String c (String c' r' +:+ post)). by rewrite <- Hs.
Qed.

Lemma rstrip_no_trailing (s : string) : no_trailing_space (rstrip s) = true.
Proof.
  induction s as [|c s IH]; [done|]. simpl.
  destruct (rstrip s) as [|c' r'].
  - destruct (isspace c) eqn:Hc; [done|]. simpl. by rewrite Hc.
  - exact IH.
Qed.

Lemma rstrip_no_leading (s : string) :
  no_leading_space s = true → no_leading_space (rstrip s) = true.
Proof.
  destruct s as [|c s]; [done|]. simpl. intros Hc.
  destruct (rstrip s); [|done].
  destruct (isspace c) eqn:E; simpl in *; [done|]. by rewrite E.
Qed.

Lemma strip_empty_blank (s : string) : strip s = "" → blank s = true.
Proof.
  unfold strip. intros Hs.
  destruct (lstrip_split s) as (pre & Hpre & Hbpre).
  destruct (rstrip_split (lstrip s)) as (post & Hpost & Hbpost).
  rewrite Hs in Hpost. change (lstrip s = post) in Hpost.
  rewrite Hpre, Hpost, blank_app, Hbpre, Hbpost. done.
Qed.

Lemma strip_trimmed (s : string) :
  strip s ≠ "" → trimmed_question (strip s).
Proof.
  intros Hne. split; [done|]. unfold strip. split.
  - apply rstrip_no_leading, lstrip_no_leading.
  - apply rstrip_no_trailing.
Qed.

(** X1: a submission is rejected exactly when the text of the input area is
    empty or whitespace only; any other text is accepted and creates one
    worker. *)
Theorem X1_rejected_iff_blank (ollama : Ollama) (app : App) :
  (process_question ollama app = app
   ↔ blank (input_area (window app)) = true)
  ∧ (blank (input_area (window app)) = false →
     length (threads (process_question ollama app))
     = S (length (threads app))).
Proof.
  assert (blank (input_area (window app)) = false →
          length (threads (process_question ollama app))
          = S (length (threads app))) as Hgrow.
  { intros Hb. rewrite process_question_accept.
    - simpl. rewrite length_app. simpl. lia.
    - intros Hs. apply strip_empty_blank in Hs. congruence. }
  split; [|exact Hgrow]. split.
  - intros Hsame. destruct (blank (input_area (window app))) eqn:Hb; [done|].
    specialize (Hgrow eq_refl). rewrite Hsame in Hgrow. lia.
  - intros Hb. unfold process_question. by rewrite (strip_blank _ Hb).
Qed.

(** X2: [process_question] sends no request to the backend itself, leaves
    the thread objects already there as they are and adds at most one, and
    does not touch the dataset, the selectors' choices, the typed text, the
    status label or the response area. *)
Theorem X2_process_question_frame (ollama : Ollama) (app : App) :
  requests (process_question ollama app) = requests app
  ∧ (∃ new, threads (process_question ollama app) = threads app ++ new
            ∧ length new ≤ 1)
  ∧ df (window (process_question ollama app)) = df (window app)
  ∧ model_selector (window (process_question ollama app))
    = model_selector (window app)
  ∧ temp_selector (window (process_question ollama app))
    = temp_selector (window app)
  ∧ input_area (window (process_question ollama app))
    = input_area (window app)
  ∧ status_label (window (process_question ollama app))
    = status_label (window app)
  ∧ output_area (window (process_question ollama app))
    = output_area (window app).
Proof.
  destruct (decide (strip (input_area (window app)) = "")) as [Hs|Hs].
  - unfold process_question. rewrite Hs. simpl.
    split; [done|]. split; [|by repeat split].
    exists []. split; [by rewrite app_nil_r|simpl; lia].
  - rewrite process_question_accept by done. simpl.
    split; [done|]. split; [|by repeat split].
    eexists. split; [done|]. simpl. lia.
Qed.

(** X3: the question an accepted submission hands to its worker is the
    typed text without the whitespace around it: the typed text is
    whitespace, the question, whitespace; the question is not empty and
    neither starts nor ends with whitespace. *)
Theorem X3_question_is_trimmed (ollama : Ollama) (app : App) :
  blank (input_area (window app)) = false →
  ∃ th pre post,
    threads (process_question ollama app) !! length (threads app) = Some th
    ∧ input_area (window app) = pre +:+ question (obj th) +:+ post
    ∧ blank pre = true ∧ blank post = true
    ∧ trimmed_question (question (obj th)).
Proof.
  intros Hb.
  assert (strip (input_area (window app)) ≠ "") as Hs.
  { intros Hs. apply strip_empty_blank in Hs. congruence. }
  rewrite process_question_accept by done. simpl.
  destruct (lstrip_split (input_area (window app))) as (pre & Hpre & Hbpre).
  destruct (rstrip_split (lstrip (input_area (window app))))
    as (post & Hpost & Hbpost).
  eexists _, pre, post. split; [apply list_lookup_middle; done|]. simpl.
  split; [|split; [done|split; [done|by apply strip_trimmed]]].
  unfold strip. rewrite <- Hpost. exact Hpre.
Qed.

Lemma X3_question_is_trimmed_witness :
  ∃ th pre post,
    threads (process_question (answers "T") (typed " 	Why?
")) !! 0 = Some th
    ∧ " 	Why?
" = pre +:+ question (obj th) +:+ post
    ∧ blank pre = true ∧ blank post = true
    ∧ trimmed_question (question (obj th)).
Proof.
  apply (X3_question_is_trimmed (answers "T") (typed " 	Why?
")).
  reflexivity.
Defined.

(** ** A submission carried to its end *)

Lemma advance_last (self : LLMInterface) (l : list QThread) (th : QThread)
    (reqs : list (string * float * string)) :
  advance (length l) {| window := self; threads := l ++ [th]; requests := reqs |}
  = match todo th with
    | [] => None
    | Invoke m t p :: rest =>
        Some {| window := self; threads := l ++ [set_todo rest th];
                requests := reqs ++ [(m, t, p)] |}
    | Emit sg :: rest =>
        Some {| window := deliver th sg self;
                threads := l ++ [set_todo rest th]; requests := reqs |}
    | Print _ :: rest =>
        Some {| window := self; threads := l ++ [set_todo rest th];
                requests := reqs |}
    end.
Proof.
  unfold advance. simpl. rewrite list_lookup_middle by done.
  assert (∀ x, <[length l := x]> (l ++ [th]) = l ++ [x]) as Hins.
  { intros x. rewrite <- (Nat.add_0_r (length l)). by rewrite insert_app_r. }
  destruct (todo th) as [|[sg|m t p|text] rest]; [done|..]; by rewrite Hins.
Qed.

(** The state an accepted submission ends in, once its worker has run to
    its end. *)
Lemma finish_submission (ollama : Ollama) (app : App) :
  strip (input_area (window app)) ≠ "" →
  let self := submitted (strip (input_area (window app))) (window app) in
  let th := {| obj := self; finished_slots := [on_response];
               error_slots := [on_error]; progress_slots := [on_progress];
               todo := [] |} in
  let armed := set_worker (Some (length (threads app)))
                 (set_progress_visible true
                    (set_progress_range (0, 0)%Z
                       (set_controls_enabled false (window app)))) in
  finish (length (threads app)) (process_question ollama app)
  = match new_llm ollama (model_name self) (temperature self) with
    | Some e =>
        {| window := handle_error (str e)
                       (handle_progress "Initializing LLM..." armed);
           threads := threads app ++ [th];
           requests := requests app |}
    | None =>
        {| window := deliver th (outcome ollama self)
                       (handle_progress "Initializing LLM..." armed);
           threads := threads app ++ [th];
           requests := requests app ++
             [(model_name self, temperature self, prompt_text self)] |}
    end.
Proof.
  intros Hs self th armed. rewrite process_question_accept by done.
  unfold finish. simpl. rewrite list_lookup_middle by done. simpl.
  rewrite events_unfold. fold self.
  destruct (new_llm ollama _ _) as [e|]; simpl.
  - rewrite advance_last. simpl. rewrite advance_last. simpl. done.
  - unfold after_request.
    destruct (generate ollama _ _ _) as [e|response]; simpl;
      repeat (rewrite advance_last; simpl); done.
Qed.

(** X4: an accepted submission against a backend that succeeds with the
    text [T], carried to the end of its worker: the backend got exactly one
    request, for the selected model and temperature; [T] is the text handed
    to the response area and Response complete the text handed to the status
    label; the four controls are enabled again with the typed text still
    there, the progress bar is hidden and the worker has nothing left to
    do. *)
Theorem X4_submission_succeeds (ollama : Ollama) (app : App) (T : string) :
  blank (input_area (window app)) = false →
  (∀ m t, new_llm ollama m t = None) →
  (∀ m t p, ∃ response,
      generate ollama m t p = inr response ∧ response !! "text" = Some T) →
  let app' := finish (length (threads app)) (process_question ollama app) in
  (∃ prompt,
      requests app' = requests app ++
        [(model_text (model_selector (window app)),
          temp_float (temp_selector (window app)), prompt)])
  ∧ output_area (window app') = T
  ∧ status_label (window app') = "Response complete"
  ∧ controls_enabled (window app')
  ∧ progress_visible (window app') = false
  ∧ input_area (window app') = input_area (window app)
  ∧ todo <$> (threads app' !! length (threads app)) = Some [].
Proof.
  intros Hb Hnew Hgen app'. unfold app'.
  assert (strip (input_area (window app)) ≠ "") as Hs.
  { intros Hs. apply strip_empty_blank in Hs. congruence. }
  rewrite finish_submission by done. rewrite Hnew. unfold outcome.
  destruct (Hgen (model_name (submitted (strip (input_area (window app)))
                                (window app)))
                 (temperature (submitted (strip (input_area (window app)))
                                 (window app)))
                 (prompt_text (submitted (strip (input_area (window app)))
                                 (window app))))
    as (response & -> & ->).
  simpl. split; [by eexists|]. rewrite list_lookup_middle by done.
  by repeat split.
Qed.

Lemma X4_submission_succeeds_witness :
  let app' := finish 0 (process_question (answers "42") (typed " Why? ")) in
  output_area (window app') = "42"
  ∧ status_label (window app') = "Response complete"
  ∧ controls_enabled (window app')
  ∧ requests app' = [("deepseek-r1:7b", 0.0%float, "Question: Why?
Detailed Answer:")].
Proof.
  intros app'.
  destruct (X4_submission_succeeds (answers "42") (typed " Why? ") "42")
    as ([prompt Hreq] & Hout & Hstatus & Hctl & _).
  - reflexivity.
  - intros m t. reflexivity.
  - intros m t p. exists {["text" := "42"]}. split; reflexivity.
  - split; [exact Hout|]. split; [exact Hstatus|]. split; [exact Hctl|].
    reflexivity.
Defined.

(** X5: an accepted submission whose backend fails with the fault [e],
    carried to the end of its worker: the text handed to the response area
    is Error, a colon, a space and the text of the fault, the text handed to
    the status label is Error occurred, and the window is ready for a new
    submission, with the four controls enabled, the progress bar hidden and
    the typed text still there.  The backend is not asked again: it got one
    request if the client could be built, none otherwise. *)
Theorem X5_submission_fails (ollama : Ollama) (app : App) (e : Exception) :
  blank (input_area (window app)) = false →
  backend_fault ollama
    (submitted (strip (input_area (window app))) (window app)) e →
  let app' := finish (length (threads app)) (process_question ollama app) in
  output_area (window app') = "Error: " +:+ str e
  ∧ status_label (window app') = "Error occurred"
  ∧ controls_enabled (window app')
  ∧ progress_visible (window app') = false
  ∧ input_area (window app') = input_area (window app)
  ∧ length (requests app') ≤ S (length (requests app))
  ∧ todo <$> (threads app' !! length (threads app)) = Some [].
Proof.
  intros Hb Hfault app'. unfold app'.
  assert (strip (input_area (window app)) ≠ "") as Hs.
  { intros Hs. apply strip_empty_blank in Hs. congruence. }
  rewrite finish_submission by done.
  destruct Hfault as [e Hnew|e Hnew Hgen|d Hnew Hgen Htext]; rewrite Hnew;
    unfold outcome; rewrite ?Hgen, ?Htext; simpl;
    rewrite list_lookup_middle by done;
    repeat split; rewrite ?length_app; simpl; lia.
Qed.

Lemma X5_submission_fails_witness :
  let app' :=
    finish 0 (process_question (unreachable "connection refused")
                (typed "Why?")) in
  output_area (window app') = "Error: connection refused"
  ∧ status_label (window app') = "Error occurred"
  ∧ controls_enabled (window app').
Proof.
  intros app'.
  destruct (X5_submission_fails (unreachable "connection refused")
              (typed "Why?") (Raised "ConnectionError" "connection refused"))
    as (Hout & Hstatus & Hctl & _).
  - reflexivity.
  - apply fault_invoke; reflexivity.
  - split; [exact Hout|]. split; [exact Hstatus|]. exact Hctl.
Defined.

(** ** What every reachable state satisfies *)

Lemma coherent_window (f : LLMInterface → LLMInterface) (app : App) :
  (∀ self,
     submit_button_enabled (f self) = submit_button_enabled self
     ∧ input_area_enabled (f self) = input_area_enabled self
     ∧ model_selector_enabled (f self) = model_selector_enabled self
     ∧ temp_selector_enabled (f self) = temp_selector_enabled self
     ∧ progress_visible (f self) = progress_visible self
     ∧ worker (f self) = worker self) →
  coherent app → coherent (with_window f app).
Proof.
  intros Hf (Hctl & Hbusy & Hlatest & Hreq & Hq).
  destruct (Hf (window app)) as (Hb & Hi & Hm & Ht & Hp & Hw).
  unfold coherent, controls_in_step, worker_is_latest, current_todo in *.
  simpl. rewrite Hb, Hi, Hm, Ht, Hp, Hw. done.
Qed.

Lemma coherent_click (ollama : Ollama) (app : App) :
  coherent app → coherent (process_question ollama app).
Proof.
  intros (Hctl & Hbusy & Hlatest & Hreq & Hq).
  destruct (decide (strip (input_area (window app)) = "")) as [Hs|Hs].
  { unfold process_question. by rewrite Hs. }
  rewrite process_question_accept by done.
  unfold coherent, controls_in_step, worker_is_latest, current_todo. simpl.
  rewrite list_lookup_middle by done. simpl. rewrite events_unfold.
  split; [done|]. split; [done|]. split; [rewrite length_app; simpl; lia|].
  split.
  - rewrite length_app. destruct (new_llm ollama _ _); simpl;
      rewrite ?prompts_after_request; simpl; lia.
  - intros r th [Hth|[_ Hth]]%lookup_app_Some; [by eapply Hq|].
    apply list_lookup_singleton_Some in Hth as [_ <-]. simpl.
    by apply strip_trimmed.
Qed.

Lemma coherent_advance (r : nat) (app app' : App) :
  single_flight app → coherent app → advance r app = Some app' →
  coherent app'.
Proof.
  intros Hsf (Hctl & Hbusy & Hlatest & Hreq & Hq) Hadv.
  unfold advance in Hadv.
  destruct (threads app !! r) as [th|] eqn:Hth; [|done].
  destruct (Hsf r th Hth) as ((Hf & He & Hp) & Hcl & Hcur).
  assert (r < length (threads app)) as Hlt by (by eapply lookup_lt_Some).
  destruct (todo th) as [|ev rest] eqn:Htodo; [done|].
  destruct Hcur as [Hworker Hoff]; [done|].
  assert (∀ r' th', <[r := set_todo rest th]> (threads app) !! r' = Some th' →
            trimmed_question (question (obj th'))) as Hq'.
  { intros r' th' Hth'. destruct (decide (r' = r)) as [->|Hne].
    - rewrite list_lookup_insert_eq in Hth' by done. simplify_eq. simpl.
      by eapply Hq.
    - rewrite list_lookup_insert_ne in Hth' by done. by eapply Hq. }
  unfold coherent, controls_in_step, worker_is_latest, current_todo in *.
  rewrite Hworker, Hth, Htodo in *.
  destruct ev as [sg|m t p|text]; simplify_eq; simpl in *.
  - unfold deliver, receivers.
    destruct sg as [text|text|text]; rewrite ?Hf, ?He, ?Hp; simpl;
      rewrite Hworker, ?length_insert, list_lookup_insert_eq by done; simpl.
    + apply bool_decide_eq_true in Hcl as ->. simpl in *.
      split; [done|]. split; [done|]. split; [done|]. split; [lia|done].
    + apply bool_decide_eq_true in Hcl as ->. simpl in *.
      split; [done|]. split; [done|]. split; [done|]. split; [lia|done].
    + apply andb_prop in Hcl as [Hrest%bool_decide_eq_true _].
      split; [done|]. split; [done|]. split; [done|]. split; [lia|done].
  - apply andb_prop in Hcl as [Hrest%bool_decide_eq_true _].
    rewrite Hworker, ?length_insert, list_lookup_insert_eq by done. simpl.
    rewrite length_app. simpl.
    split; [done|]. split; [done|]. split; [done|]. split; [lia|done].
  - apply andb_prop in Hcl as [Hrest%bool_decide_eq_true _].
    rewrite Hworker, ?length_insert, list_lookup_insert_eq by done. simpl.
    split; [done|]. split; [done|]. split; [done|]. split; [lia|done].
Qed.

Lemma coherent_step (app app' : App) :
  single_flight app → coherent app → step app app' → coherent app'.
Proof.
  intros Hsf Hcoh Hstep.
  destruct Hstep as [ollama app Hon|text app _|m t app _ _|file_name read app
                    |plot app|r app app' Hadv].
  - by apply coherent_click.
  - by apply coherent_window.
  - by apply coherent_window.
  - apply coherent_window; [|done]. intros w. unfold upload_csv.
    destruct (truthy file_name); [|done]. by destruct read.
  - apply coherent_window; [|done]. intros w. unfold create_plot.
    destruct (df w); [|done]. by destruct plot.
  - by eapply coherent_advance.
Qed.

Lemma reachable_coherent (app : App) : reachable app → coherent app.
Proof.
  intros Hreach.
  cut (single_flight app ∧ coherent app); [by intros []|].
  revert app Hreach. apply rtc_ind_r.
  - split; [intros r th Hth; done|].
    unfold coherent, controls_in_step, worker_is_latest, current_todo.
    simpl. split; [done|]. split; [done|]. split; [done|]. split; [lia|done].
  - intros app app' _ Hstep [Hsf Hcoh]. split.
    + by eapply single_flight_step.
    + by eapply coherent_step.
Qed.

(** X6: in every state the program reaches, the submit button, the input
    area and the two selectors are enabled or disabled together, the
    progress bar shows exactly while they are disabled, and they are
    disabled exactly while some worker has something left to do. *)
Theorem X6_controls_follow_worker (app : App) :
  reachable app →
  controls_in_step (window app)
  ∧ (submit_button_enabled (window app) = false ↔ busy app).
Proof.
  intros Hreach.
  destruct (reachable_coherent app Hreach) as (Hctl & Hbusy & _).
  split; [done|]. split.
  - intros Hoff. specialize (Hbusy Hoff). unfold current_todo in Hbusy.
    destruct (worker (window app)) as [r|]; [|done].
    destruct (threads app !! r) as [th|] eqn:Hth; [|done].
    by exists r, th.
  - intros (r & th & Hth & Htodo).
    by destruct (reachable_single_flight app Hreach r th Hth)
      as (_ & _ & [_ Hoff]).
Qed.

Lemma X6_controls_follow_worker_witness :
  controls_in_step (window (process_question (answers "T") (typed "Q")))
  ∧ (submit_button_enabled
       (window (process_question (answers "T") (typed "Q"))) = false
     ↔ busy (process_question (answers "T") (typed "Q"))).
Proof.
  apply (X6_controls_follow_worker (process_question (answers "T") (typed "Q"))).
  unfold reachable.
  eapply rtc_l; [apply (step_edit "Q" App_init); reflexivity|].
  eapply rtc_l; [apply (step_click (answers "T")); reflexivity|].
  apply rtc_refl.
Defined.

(** X7: in every state the program reaches, [self.worker] is unset exactly
    while no worker was ever created, and otherwise refers to the worker
    created last. *)
Theorem X7_worker_is_latest (app : App) :
  reachable app → worker_is_latest app.
Proof. intros Hreach. by destruct (reachable_coherent app Hreach) as (_ & _ & ? & _). Qed.

Lemma X7_worker_is_latest_witness :
  worker_is_latest (process_question (answers "T") (typed "Q")).
Proof.
  apply (X7_worker_is_latest (process_question (answers "T") (typed "Q"))).
  unfold reachable.
  eapply rtc_l; [apply (step_edit "Q" App_init); reflexivity|].
  eapply rtc_l; [apply (step_click (answers "T")); reflexivity|].
  apply rtc_refl.
Defined.

(** X8: in every state the program reaches, the backend has received at
    most one request per worker created: nothing is ever asked twice. *)
Theorem X8_one_request_per_worker (app : App) :
  reachable app → length (requests app) ≤ length (threads app).
Proof.
  intros Hreach.
  destruct (reachable_coherent app Hreach) as (_ & _ & _ & Hreq & _). lia.
Qed.

Lemma X8_one_request_per_worker_witness :
  length (requests (drain 0 3 (process_question (answers "T") (typed "Q"))))
  ≤ length (threads (drain 0 3 (process_question (answers "T") (typed "Q")))).
Proof.
  set (app1 := process_question (answers "T") (typed "Q")).
  apply (X8_one_request_per_worker (drain 0 3 app1)).
  unfold reachable.
  eapply rtc_l; [apply (step_edit "Q" App_init); reflexivity|].
  eapply rtc_l; [apply (step_click (answers "T")); reflexivity|].
  eapply rtc_l;
    [apply (step_thread 0 app1 (drain 0 1 app1)); vm_compute; reflexivity|].
  eapply rtc_l;
    [apply (step_thread 0 (drain 0 1 app1) (drain 0 2 app1));
     vm_compute; reflexivity|].
  eapply rtc_l;
    [apply (step_thread 0 (drain 0 2 app1) (drain 0 3 app1));
     vm_compute; reflexivity|].
  apply rtc_refl.
Defined.

(** X9: every worker the program ever creates has a question that is not
    empty and has no whitespace around it, and has its three signals
    connected to [handle_response], [handle_error] and [handle_progress],
    one slot each. *)
Theorem X9_workers_well_formed (app : App) (r : nat) (th : QThread) :
  reachable app →
  threads app !! r = Some th →
  trimmed_question (question (obj th)) ∧ wired th.
Proof.
  intros Hreach Hth.
  destruct (reachable_coherent app Hreach) as (_ & _ & _ & _ & Hq).
  destruct (reachable_single_flight app Hreach r th Hth) as (Hw & _).
  split; [by eapply Hq|done].
Qed.

Lemma X9_workers_well_formed_witness :
  match threads (process_question (answers "T") (typed " Q ")) !! 0 with
  | Some th => trimmed_question (question (obj th)) ∧ wired th
  | None => False
  end.
Proof.
  destruct (threads (process_question (answers "T") (typed " Q ")) !! 0)
    as [th|] eqn:Hth; [|vm_compute in Hth; discriminate].
  apply (X9_workers_well_formed
           (process_question (answers "T") (typed " Q ")) 0 th); [|exact Hth].
  unfold reachable.
  eapply rtc_l; [apply (step_edit " Q " App_init); reflexivity|].
  eapply rtc_l; [apply (step_click (answers "T")); reflexivity|].
  apply rtc_refl.
Defined.

(** ** Requests and prompts *)

Lemma contains_refl (s : string) : contains s s.
Proof.
  exists "", "". change (s = s +:+ "").
  induction s as [|c s IH]; [done|].
  change (String c s = String c (s +:+ "")). by rewrite <- IH.
Qed.

Lemma contains_app_r (x a b : string) : contains x b → contains x (a +:+ b).
Proof.
  intros (pre & post & ->). exists (a +:+ pre), post.
  by rewrite append_assoc.
Qed.

Lemma contains_app_l (x a b : string) : contains x a → contains x (a +:+ b).
Proof.
  intros (pre & post & ->). exists pre, (post +:+ b).
  by rewrite !append_assoc.
Qed.

Lemma contains_join (sep x : string) (l : list string) :
  x ∈ l → contains x (join sep l).
Proof.
  induction l as [|y l IH]; [by intros ?%elem_of_nil|].
  intros [->|Hx]%elem_of_cons.
  - destruct l as [|z l]; [apply contains_refl|].
    change (contains y (y +:+ sep +:+ join sep (z :: l))).
    apply contains_app_l, contains_refl.
  - destruct l as [|z l]; [by apply elem_of_nil in Hx|].
    change (contains x (y +:+ sep +:+ join sep (z :: l))).
    by apply contains_app_r, contains_app_r, IH.
Qed.

Lemma no_request_after_request (ollama : Ollama) (self : LLMWorker)
    (m : string) (t : float) (p : string) :
  Invoke m t p ∉ after_request ollama self.
Proof.
  unfold after_request. intros Hin.
  destruct (generate ollama _ _ _);
    repeat (apply elem_of_cons in Hin as [Hin|Hin]; [done|]);
    by apply elem_of_nil in Hin.
Qed.

(** X10: a worker asks the backend at most once, for its own model and
    temperature, and not at all when the client cannot be constructed; a
    failed request is not repeated. *)
Theorem X10_at_most_one_request (ollama : Ollama) (self : LLMWorker) :
  length (prompts (events ollama self)) ≤ 1
  ∧ (∀ m t p, Invoke m t p ∈ events ollama self →
       m = model_name self ∧ t = temperature self)
  ∧ (is_Some (new_llm ollama (model_name self) (temperature self)) →
     prompts (events ollama self) = []).
Proof.
  rewrite events_unfold.
  destruct (new_llm ollama _ _) as [e|]; simpl.
  - split; [lia|]. split; [|done]. intros m t p Hin.
    apply elem_of_cons in Hin as [|Hin]; [done|].
    apply list_elem_of_singleton in Hin. done.
  - rewrite prompts_after_request. simpl.
    split; [lia|]. split; [|by intros [? ?]]. intros m t p Hin.
    do 3 (apply elem_of_cons in Hin as [|Hin]; [done|]).
    apply elem_of_cons in Hin as [[= -> -> ->]|Hin]; [done|].
    by apply no_request_after_request in Hin.
Qed.

(** X11: whatever characters the question is made of, formatting the prompt
    does not fail and the question is in the prompt as it is: a worker whose
    client could be constructed sends exactly one prompt, and that prompt
    contains the question.  Braces in the question are not read as template
    fields. *)
Theorem X11_question_verbatim (ollama : Ollama) (self : LLMWorker) :
  new_llm ollama (model_name self) (temperature self) = None →
  ∃ p, prompts (events ollama self) = [p] ∧ contains (question self) p.
Proof.
  intros Hnew. rewrite events_unfold, Hnew. simpl.
  rewrite prompts_after_request. eexists. split; [done|].
  unfold prompt_text. destruct (has_csv_context self) as [c|].
  - do 3 apply contains_app_r. apply contains_app_l, contains_refl.
  - apply contains_app_r, contains_app_l, contains_refl.
Qed.

Lemma X11_question_verbatim_witness :
  ∃ p, prompts (events (answers "T")
                  {| question := "What is {csv_context}}?"; model_name := "m";
                     temperature := 0.2; csv_context := None |}) = [p]
       ∧ contains "What is {csv_context}}?" p.
Proof.
  apply (X11_question_verbatim (answers "T")
           {| question := "What is {csv_context}}?"; model_name := "m";
              temperature := 0.2; csv_context := None |}).
  reflexivity.
Defined.

(** X16: with a dataset as context, every column name, the first rows and
    the summary statistics of the dataset are in the prompt. *)
Theorem X16_dataset_in_prompt (ollama : Ollama) (d : DataFrame)
    (q m : string) (t : float) (c p : string) :
  c ∈ columns d →
  p ∈ prompts (events ollama
                 {| question := q; model_name := m; temperature := t;
                    csv_context := Some (describe_dataset d) |}) →
  contains c p ∧ contains (head_to_string d) p
  ∧ contains (describe_to_string d) p.
Proof.
  intros Hc. rewrite events_unfold.
  destruct (new_llm ollama _ _) as [e|]; simpl; [by intros ?%elem_of_nil|].
  rewrite prompts_after_request. intros ->%list_elem_of_singleton.
  change (prompt_text _) with
    ("CSV Data Context:
" +:+ describe_dataset d +:+ "

Question about the data: " +:+ q +:+ "

Provide a clear and detailed answer based on the CSV data above:").
  assert (∀ x, contains x (describe_dataset d) →
            contains x ("CSV Data Context:
" +:+ describe_dataset d +:+ "

Question about the data: " +:+ q +:+ "

Provide a clear and detailed answer based on the CSV data above:")) as Hin.
  { intros x Hx. by apply contains_app_r, contains_app_l. }
  unfold describe_dataset in Hin at 1.
  split; [|split]; apply Hin.
  - do 5 apply contains_app_r. by apply contains_app_l, contains_join.
  - do 7 apply contains_app_r. apply contains_app_l, contains_refl.
  - do 9 apply contains_app_r. apply contains_refl.
Qed.

Lemma X16_dataset_in_prompt_witness :
  match prompts (events (answers "T")
                   {| question := "Q"; model_name := "m"; temperature := 0.2;
                      csv_context := Some (describe_dataset small_df) |}) with
  | p :: _ =>
      contains "b" p ∧ contains (head_to_string small_df) p
      ∧ contains (describe_to_string small_df) p
  | [] => False
  end.
Proof.
  destruct (prompts (events (answers "T")
                       {| question := "Q"; model_name := "m";
                          temperature := 0.2;
                          csv_context := Some (describe_dataset small_df) |}))
    as [|p l] eqn:Hp; [vm_compute in Hp; discriminate|].
  apply (X16_dataset_in_prompt (answers "T") small_df "Q" "m" 0.2 "b" p).
  - apply list_elem_of_further, list_elem_of_here.
  - rewrite Hp. apply list_elem_of_here.
Defined.

(** ** Loading, plotting and the running query *)

(** X12: when loading a CSV file fails, the window has no dataset any more,
    also if one was loaded before, and the status label shows the fault; the
    next accepted question is then sent without dataset context. *)
Theorem X12_failed_load_drops_dataset (ollama : Ollama) (app : App)
    (file_name : string) (e : Exception) :
  file_name ≠ "" →
  blank (input_area (window app)) = false →
  let app' := with_window (upload_csv file_name (inl e)) app in
  df (window app') = None
  ∧ status_label (window app') = "Error loading CSV: " +:+ str e
  ∧ ∃ th,
      threads (process_question ollama app') !! length (threads app) = Some th
      ∧ csv_context (obj th) = None.
Proof.
  intros Hfile Hb app'. unfold app', upload_csv.
  destruct file_name as [|c file_name]; [done|]. simpl.
  split; [done|]. split; [done|].
  rewrite process_question_accept; simpl.
  - eexists. split; [apply list_lookup_middle; done|]. done.
  - intros Hs. apply strip_empty_blank in Hs. congruence.
Qed.

Lemma X12_failed_load_drops_dataset_witness :
  let app' :=
    with_window (upload_csv "broken.csv" (inl (Raised "ParserError" "bad line")))
      (typed_with_data "Q") in
  df (window (typed_with_data "Q")) = Some small_df
  ∧ df (window app') = None
  ∧ status_label (window app') = "Error loading CSV: bad line".
Proof.
  intros app'.
  destruct (X12_failed_load_drops_dataset (answers "T") (typed_with_data "Q")
              "broken.csv" (Raised "ParserError" "bad line"))
    as (Hdf & Hstatus & _).
  - discriminate.
  - reflexivity.
  - split; [reflexivity|]. split; [exact Hdf|exact Hstatus].
Defined.

(** X13: loading a CSV file and creating a plot leave the query alone: the
    four controls, the progress bar, the typed text, the selectors' choices,
    the response area and [self.worker] stay as they are.  Creating a plot
    never changes the dataset and only asks for one when none is loaded; a
    file dialog that was cancelled changes nothing. *)
Theorem X13_load_and_plot_frame (file_name : string)
    (read : Exception + DataFrame) (plot : Exception + unit) :
  keeps_query_state (upload_csv file_name read)
  ∧ keeps_query_state (create_plot plot)
  ∧ (∀ self, df (create_plot plot self) = df self)
  ∧ (∀ self, df self = None →
       status_label (create_plot plot self) = "Please load a CSV file first")
  ∧ (∀ self, upload_csv "" read self = self).
Proof.
  split; [|split; [|split; [|split]]].
  - intros self. unfold upload_csv.
    destruct (truthy file_name); [|by repeat split].
    destruct read; by repeat split.
  - intros self. unfold create_plot.
    destruct (df self); [|by repeat split]. destruct plot; by repeat split.
  - intros self. unfold create_plot.
    destruct (df self) eqn:Hdf; [|done]. by destruct plot.
  - intros self Hdf. unfold create_plot. by rewrite Hdf.
  - done.
Qed.

Lemma step_keeps_thread (app app' : App) (r : nat) (th : QThread) :
  step app app' →
  threads app !! r = Some th →
  ∃ th', threads app' !! r = Some th'
         ∧ obj th' = obj th
         ∧ finished_slots th' = finished_slots th
         ∧ error_slots th' = error_slots th
         ∧ progress_slots th' = progress_slots th
         ∧ todo th' `suffix_of` todo th.
Proof.
  intros Hstep Hth.
  destruct Hstep as [ollama app Hon|text app _|m t app _ _|file_name read app
                    |plot app|r0 app app' Hadv];
    try (by exists th).
  - exists th. split; [|done].
    destruct (decide (strip (input_area (window app)) = "")) as [Hs|Hs].
    + unfold process_question. by rewrite Hs.
    + rewrite process_question_accept by done. simpl.
      by apply lookup_app_l_Some.
  - unfold advance in Hadv.
    destruct (threads app !! r0) as [th0|] eqn:Hth0; [|done].
    assert (r0 < length (threads app)) as Hlt by (by eapply lookup_lt_Some).
    assert (∀ ev rest, todo th0 = ev :: rest →
              ∃ th', <[r0 := set_todo rest th0]> (threads app) !! r = Some th'
                     ∧ obj th' = obj th
                     ∧ finished_slots th' = finished_slots th
                     ∧ error_slots th' = error_slots th
                     ∧ progress_slots th' = progress_slots th
                     ∧ todo th' `suffix_of` todo th) as Hins.
    { intros ev rest Hrest. destruct (decide (r = r0)) as [->|Hne].
      - rewrite list_lookup_insert_eq by done. simplify_eq.
        eexists. split; [done|]. simpl. repeat split; try done.
        rewrite Hrest. by apply suffix_cons_r.
      - rewrite list_lookup_insert_ne by done. by exists th. }
    destruct (todo th0) as [|[sg|m t p|text] rest] eqn:Htodo; [done|..];
      simplify_eq; simpl; by eapply Hins.
Qed.

(** X14: a worker is a snapshot of the window at the time of its
    submission.  Whatever happens afterwards (text typed, another model or
    temperature selected, another CSV file loaded, further submissions,
    other workers running), the question, model, temperature and dataset
    context of a worker and the slots connected to it stay the same, and
    what it has left to do only gets shorter. *)
Theorem X14_worker_is_a_snapshot (app app' : App) (r : nat) (th : QThread) :
  rtc step app app' →
  threads app !! r = Some th →
  ∃ th', threads app' !! r = Some th'
         ∧ obj th' = obj th
         ∧ finished_slots th' = finished_slots th
         ∧ error_slots th' = error_slots th
         ∧ progress_slots th' = progress_slots th
         ∧ todo th' `suffix_of` todo th.
Proof.
  intros Hsteps. revert th.
  induction Hsteps as [app|app app1 app' Hstep _ IH]; intros th Hth.
  - by exists th.
  - destruct (step_keeps_thread app app1 r th Hstep Hth)
      as (th1 & Hth1 & Hobj1 & Hf1 & He1 & Hp1 & Hsuf1).
    destruct (IH th1 Hth1) as (th' & Hth' & Hobj & Hf & He & Hp & Hsuf).
    exists th'. split; [done|].
    rewrite Hobj, Hf, He, Hp. repeat split; try done.
    by etrans.
Qed.

Lemma X14_worker_is_a_snapshot_witness :
  let app := process_question (answers "T") (typed "Q") in
  let app' := with_window (upload_csv "small.csv" (inr small_df)) app in
  df (window app') = Some small_df
  ∧ ∃ th', threads app' !! 0 = Some th'
           ∧ obj th' = submitted "Q" LLMInterface_init.
Proof.
  intros app app'. split; [reflexivity|].
  destruct (threads app !! 0) as [th|] eqn:Hth;
    [|vm_compute in Hth; discriminate].
  destruct (X14_worker_is_a_snapshot app app' 0 th)
    as (th' & Hth' & Hobj & _).
  - apply rtc_once. apply (step_upload "small.csv" (inr small_df) app).
  - exact Hth.
  - exists th'. split; [exact Hth'|]. rewrite Hobj.
    vm_compute in Hth. by injection Hth as <-.
Defined.

(** X15: a window that was just opened has the first model selected and the
    temperature 0.0: the text 0.7 that [__init__] asks the temperature
    selector to show is not one of its items, so the selection stays on the
    first item.  A question submitted right away goes to deepseek-r1:7b at
    temperature 0.0, without dataset context. *)
Theorem X15_fresh_window_defaults (ollama : Ollama) (text : string) :
  blank text = false →
  ∃ th,
    threads (process_question ollama (typed text)) !! 0 = Some th
    ∧ model_name (obj th) = "deepseek-r1:7b"
    ∧ temperature (obj th) = 0.0%float
    ∧ csv_context (obj th) = None.
Proof.
  intros Hb. rewrite process_question_accept.
  - eexists. split; [reflexivity|]. by repeat split.
  - intros Hs. apply strip_empty_blank in Hs. simpl in Hs. congruence.
Qed.

Lemma X15_fresh_window_defaults_witness :
  ∃ th,
    threads (process_question (answers "T") (typed "Why?")) !! 0 = Some th
    ∧ model_name (obj th) = "deepseek-r1:7b"
    ∧ temperature (obj th) = 0.0%float
    ∧ csv_context (obj th) = None.
Proof.
  apply (X15_fresh_window_defaults (answers "T") "Why?"). reflexivity.
Defined.
